(** * The mem0 benchmark harness of sweetmcp-memory

    A shallow embedding of
    [sweetmcp-memory/benches/python_comparison/download_and_run_python_mem0.py]
    (the driver [main], [setup_mem0], [run_benchmarks],
    [format_comparison_results]) and of the benchmark script the driver
    writes and runs ([random_content], [random_embedding], the three
    [benchmark_*] functions and the statistics dictionary they build).

    Conventions of the embedding:
    - Python [int] is [Z]; a Python [float] is an exact rational [Q] where
      only its order or its range matters (the latencies in the script, the
      random numbers), and an IEEE 754 binary64 number ([float]) in
      [summarize_float], the statistics with their rounding;
    - a Python [dict] with string keys is an association list in insertion
      order; JSON documents are the inductive type [json];
    - an exception is a value of [exn], a computation that can raise returns
      a [result];
    - the file system, the clock, the random generator and every external
      process are explicit: the directories and files the driver touches are
      the record [fs], what the outside world answers is the record
      [world];
    - the operating system refuses none of the driver's own file operations
      ([mkdir], [rmtree], opening a file for writing): permissions, a full
      disk or a [vendor/mem0] that is no plain directory are outside the
      model. What can fail is a child process, by its exit status, the
      reading of the result file, and the subscripts of the report. *)

From Stdlib Require Import ZArith QArith Qpower Qround Lia List Bool Ascii
  String Permutation Sorted DecimalString Floats.
From stdpp Require Import base option strings gmap.
Import ListNotations.

Local Open Scope string_scope.
Local Open Scope list_scope.
Local Open Scope Z_scope.

(** ** Exceptions and results *)

(** The exceptions the program can raise, by their Python class. *)
Inductive exn : Type :=
  | ZeroDivisionError
  | IndexError
  | KeyError (key : string)
  | TypeError
  | CalledProcessError (cmd : list string)
  | FileNotFoundError (path : string)
  | JSONDecodeError
  | ValueError
  | PyException (msg : string).

Inductive result (A : Type) : Type :=
  | Ok (a : A)
  | Raise (e : exn).
Arguments Ok {A} a.
Arguments Raise {A} e.

Definition rbind {A B} (r : result A) (k : A -> result B) : result B :=
  match r with
  | Ok a => k a
  | Raise e => Raise e
  end.

Declare Scope py_scope.
Delimit Scope py_scope with py.
Notation "'let?' x ':=' r 'in' k" := (rbind r (fun x => k))
  (at level 10, x pattern, r at level 100, k at level 200) : py_scope.
Local Open Scope py_scope.

Definition is_ok {A} (r : result A) : bool :=
  match r with Ok _ => true | Raise _ => false end.

(** ** JSON documents and dictionaries *)

#[local] Set Warnings "-register-all".

Inductive json : Type :=
  | JNull
  | JBool (b : bool)
  | JInt (z : Z)
  | JFloat (q : Q)
  | JStr (s : string)
  | JArr (items : list json)
  | JObj (fields : list (string * json)).

Definition dict := list (string * json).

(** [d.get(k)] on an association list. *)
Fixpoint dict_get (d : dict) (k : string) : option json :=
  match d with
  | [] => None
  | (k', v) :: d' => if String.eqb k' k then Some v else dict_get d' k
  end.

(** [d[k] = v]: an existing key keeps its position, a new key goes last. *)
Fixpoint dict_set (d : dict) (k : string) (v : json) : dict :=
  match d with
  | [] => [(k, v)]
  | (k', v') :: d' =>
      if String.eqb k' k then (k', v) :: d' else (k', v') :: dict_set d' k v
  end.

Definition dict_keys (d : dict) : list string := map fst d.

(** [obj[k]] with a string subscript: [KeyError] on a dict without the key,
    [TypeError] on every value that is not a dict. *)
Definition getitem (obj : json) (k : string) : result json :=
  match obj with
  | JObj d =>
      match dict_get d k with
      | Some v => Ok v
      | None => Raise (KeyError k)
      end
  | _ => Raise TypeError
  end.

(** The keys of a JSON object ([[]] for any other value). *)
Definition json_keys (j : json) : list string :=
  match j with
  | JObj d => dict_keys d
  | _ => []
  end.

(** [mentions k j]: the key [k] occurs in some object nested anywhere in
    [j]. *)
Fixpoint mentions (k : string) (j : json) : bool :=
  match j with
  | JArr items => existsb (mentions k) items
  | JObj d =>
      existsb (fun kv => String.eqb (fst kv) k || mentions k (snd kv)) d
  | _ => false
  end.

(** ** Statistics of a latency sample (benchmark script, lines 86-91) *)

(** [sum(times)] *)
Definition sum (times : list Q) : Q := fold_left Qplus times 0%Q.

(** Insertion of one element, after the elements that are not larger:
    the sort is stable, as Python's. *)
Fixpoint insert_sorted (x : Q) (l : list Q) : list Q :=
  match l with
  | [] => [x]
  | y :: l' => if Qle_bool y x then y :: insert_sorted x l' else x :: y :: l'
  end.

(** [sorted(times)] *)
Definition sorted (times : list Q) : list Q :=
  fold_left (fun acc x => insert_sorted x acc) times [].

(** [l[i]] for a list: negative subscripts count from the end, a subscript
    out of range raises [IndexError]. *)
Definition list_getitem {A} (l : list A) (i : Z) : result A :=
  let n := Z.of_nat (length l) in
  let j := if i <? 0 then i + n else i in
  if (0 <=? j) && (j <? n) then
    match nth_error l (Z.to_nat j) with
    | Some a => Ok a
    | None => Raise IndexError
    end
  else Raise IndexError.

(** [min(times)] and [max(times)] of a non-empty list: the first smallest
    and the first largest element. *)
Definition min_from (x : Q) (l : list Q) : Q :=
  fold_left (fun m y => if Qlt_le_dec y m then y else m) l x.

Definition max_from (x : Q) (l : list Q) : Q :=
  fold_left (fun m y => if Qlt_le_dec m y then y else m) l x.

Record stats : Type := Stats {
  mean_ms : Q;
  median_ms : Q;
  min_ms : Q;
  max_ms : Q
}.

(** The dictionary display
    [{"mean_ms": sum(times) / len(times),
      "median_ms": sorted(times)[len(times) // 2],
      "min_ms": min(times), "max_ms": max(times)}],
    its entries evaluated in this order. *)
Definition summarize (times : list Q) : result stats :=
  let n := Z.of_nat (length times) in
  let? mean := (if n =? 0 then Raise ZeroDivisionError
                else Ok (sum times / inject_Z n)%Q) in
  let? median := list_getitem (sorted times) (n / 2) in
  match times with
  | [] => Raise ValueError
  | x :: l => Ok (Stats mean median (min_from x l) (max_from x l))
  end.

Definition stats_json (s : stats) : json :=
  JObj [("mean_ms", JFloat (mean_ms s)); ("median_ms", JFloat (median_ms s));
        ("min_ms", JFloat (min_ms s)); ("max_ms", JFloat (max_ms s))].

(** ** Computations with state and exceptions *)

(** A computation over a state [S] that returns an [A] or raises; the state
    reached when the exception was raised is kept. *)
Definition M (S A : Type) : Type := S -> result A * S.

Definition ret {S A} (a : A) : M S A := fun s => (Ok a, s).

Definition raise {S A} (e : exn) : M S A := fun s => (Raise e, s).

Definition bind {S A B} (c : M S A) (k : A -> M S B) : M S B :=
  fun s =>
    match c s with
    | (Ok a, s') => k a s'
    | (Raise e, s') => (Raise e, s')
    end.

Definition lift_result {S A} (r : result A) : M S A := fun s => (r, s).

Notation "x <- c ;; k" := (bind c (fun x => k))
  (at level 100, c at next level, right associativity) : py_scope.
Notation "c ;;; k" := (bind c (fun _ => k))
  (at level 100, right associativity) : py_scope.

(** [for x in xs: acc = body(acc, x)] *)
Fixpoint for_each {S A B} (xs : list A) (body : B -> A -> M S B) (acc : B)
  : M S B :=
  match xs with
  | [] => ret acc
  | x :: xs' => acc' <- body acc x ;; for_each xs' body acc'
  end.

(** [for _ in range(n): acc = body(acc)] *)
Fixpoint repeat_n {S B} (n : nat) (body : B -> M S B) (acc : B) : M S B :=
  match n with
  | O => ret acc
  | S n' => acc' <- body acc ;; repeat_n n' body acc'
  end.

(** [str(n)] for an integer. *)
Definition str (n : Z) : string := NilZero.string_of_int (Z.to_int n).

(** ** The benchmark script (lines 56-171 of the driver) *)

(** [string.ascii_letters + string.digits + ' '] *)
Definition alphabet : list ascii :=
  list_ascii_of_string
    "abcdefghijklmnopqrstuvwxyzABCDEFGHIJKLMNOPQRSTUVWXYZ0123456789 ".

(** What the script's process sees of the outside: the random generator
    ([random.random()], one float per call), the clock ([time.time()], in
    seconds) and the mem0 store behind [Memory()], [m.add] and
    [m.get_all]. Each is a transition of the process state [G]. *)
Record host (G : Type) : Type := Host {
  random : G -> Q * G;
  time : G -> Q * G;
  memory_init : M G unit;
  m_add : string -> M G dict;
  m_get_all : M G json
}.
Arguments random {G} h g.
Arguments time {G} h g.
Arguments memory_init {G} h s.
Arguments m_add {G} h content s.
Arguments m_get_all {G} h s.

Section Script.
Context {G : Type} (h : host G).

Definition py_random : M G Q := fun g => let (r, g') := random h g in (Ok r, g').
Definition py_time : M G Q := fun g => let (t, g') := time h g in (Ok t, g').

(** [random.choices(population, k=k)] without weights, as the standard
    library computes it:
    [[population[floor(random() * n)] for i in repeat(None, k)]]. *)
Definition choices (population : list ascii) (k : Z) : M G (list ascii) :=
  let n := Z.of_nat (length population) in
  repeat_n (Z.to_nat k)
    (fun acc =>
       r <- py_random ;;
       c <- lift_result (list_getitem population (Qfloor (r * inject_Z n))) ;;
       ret (acc ++ [c]))
    [].

(** [''.join(random.choices(string.ascii_letters + string.digits + ' ',
    k=size))] *)
Definition random_content (size : Z) : M G string :=
  cs <- choices alphabet size ;; ret (string_of_list_ascii cs).

(** [[random.random() for _ in range(dim)]] *)
Definition random_embedding (dim : Z) : M G (list Q) :=
  repeat_n (Z.to_nat dim) (fun acc => r <- py_random ;; ret (acc ++ [r])) [].

(** One timed call: [start = time.time(); op; end = time.time();
    times.append((end - start) * 1000)]. *)
Definition timed {A} (op : M G A) (times : list Q) : M G (list Q) :=
  start <- py_time ;;
  _ <- op ;;
  stop <- py_time ;;
  ret (times ++ [((stop - start) * 1000)%Q]).

Definition store_stats (results : dict) (key : string) (times : list Q)
  : M G dict :=
  s <- lift_result (summarize times) ;;
  ret (dict_set results key (stats_json s)).

Definition benchmark_memory_creation (sizes : list Z) (iterations : Z)
  : M G dict :=
  for_each sizes
    (fun results size =>
       times <- repeat_n (Z.to_nat iterations)
                  (fun times =>
                     content <- random_content size ;;
                     timed (m_add h content) times)
                  [] ;;
       store_stats results ("memory_creation_" ++ str size) times)
    [].

Definition benchmark_memory_with_embedding (dims : list Z) (iterations : Z)
  : M G dict :=
  for_each dims
    (fun results dim =>
       times <- repeat_n (Z.to_nat iterations)
                  (fun times =>
                     content <- random_content 100 ;;
                     _ <- random_embedding dim ;;
                     timed (m_add h content) times)
                  [] ;;
       store_stats results ("memory_with_embedding_" ++ str dim) times)
    [].

Definition benchmark_memory_retrieval (iterations : Z) : M G dict :=
  _ <- repeat_n 10
         (fun memory_ids =>
            content <- random_content 1000 ;;
            result <- m_add h content ;;
            match result, dict_get result "id" with
            | _ :: _, Some id => ret (memory_ids ++ [id])
            | _, _ => ret memory_ids
            end)
         [] ;;
  times <- repeat_n (Z.to_nat iterations) (timed (m_get_all h)) [] ;;
  store_stats [] "memory_retrieval" times.

Definition content_sizes : list Z := [10; 100; 1000; 10000].
Definition embedding_dims : list Z := [32; 128; 512; 1536].

(** The body of the script up to [all_results]. *)
Definition all_results : M G json :=
  memory_init h ;;;
  creation_results <- benchmark_memory_creation content_sizes 10 ;;
  embedding_results <- benchmark_memory_with_embedding embedding_dims 10 ;;
  retrieval_results <- benchmark_memory_retrieval 10 ;;
  retrieval <- lift_result (getitem (JObj retrieval_results) "memory_retrieval") ;;
  ret (JObj [("memory_creation", JObj creation_results);
             ("memory_with_embedding", JObj embedding_results);
             ("memory_retrieval", retrieval)]).
End Script.

(** ** The driver's view of the machine *)

(** What [pip] has put into the virtual environment. *)
Record venv_state : Type := Venv {
  has_mem0 : bool;
  has_numpy : bool
}.

(** A file holding text: a JSON document, or text [json.load] rejects. *)
Inductive content : Type :=
  | Doc (j : json)
  | Garbage.

(** The directory [vendor/mem0]: the clone, its [venv] sub-directory, the
    generated [run_benchmarks.py] and [mem0_benchmark_results.json]. *)
Record mem0_tree : Type := Mem0Tree {
  venv : option venv_state;
  benchmark_script : bool;
  raw_results : option content
}.

(** The directories the driver reads and writes: [vendor] (absent, or
    present with or without [mem0] in it) and [benches/benchmark_results]
    (absent, or the files in it by name). *)
Record fs : Type := Fs {
  vendor : option (option mem0_tree);
  results_dir : option (gmap string json)
}.

(** The driver's process: the disk and the command lines it has run. *)
Record proc : Type := Proc {
  disk : fs;
  ran : list (list string)
}.

Record datetime : Type := DateTime {
  year : Z; month : Z; day : Z;
  hour : Z; minute : Z; second : Z;
  microsecond : Z
}.

(** What a finished child process leaves behind. *)
Record completed : Type := Completed {
  returncode : Z;
  stderr : string;
  writes : option content
}.

(** The answers of the outside world during one run of the driver: whether
    [git clone], [python -m venv] and the two [pip install] succeed (a
    failed [venv] may leave its directory behind), what the benchmark
    script does in a given environment, and the wall-clock time. *)
Record world : Type := World {
  git_clone_ok : bool;
  venv_ok : bool;
  venv_leaves_dir : bool;
  pip_mem0_ok : bool;
  pip_numpy_ok : bool;
  bench : venv_state -> completed;
  now : datetime
}.

Definition mem0_dir : string := "vendor/mem0".
Definition venv_dir : string := "vendor/mem0/venv".
Definition output_dir : string := "benches/benchmark_results".

Definition mem0_of (d : fs) : option mem0_tree :=
  match vendor d with
  | Some (Some t) => Some t
  | _ => None
  end.

(** [mem0_dir.exists()] and [venv_dir.exists()] *)
Definition mem0_exists (d : fs) : bool := bool_decide (is_Some (mem0_of d)).

Definition venv_exists (d : fs) : bool :=
  match mem0_of d with
  | Some t => bool_decide (is_Some (venv t))
  | None => false
  end.

(** The environment is really there: mem0 and numpy are installed in the
    virtual environment of the clone. *)
Definition installed (d : fs) : bool :=
  match mem0_of d with
  | Some (Mem0Tree (Some (Venv true true)) _ _) => true
  | _ => false
  end.

Definition set_mem0 (t : option mem0_tree) (d : fs) : fs :=
  Fs (Some t) (results_dir d).

Definition update_mem0 (f : mem0_tree -> mem0_tree) (d : fs) : fs :=
  match mem0_of d with
  | Some t => set_mem0 (Some (f t)) d
  | None => d
  end.

Definition set_venv (v : option venv_state) (t : mem0_tree) : mem0_tree :=
  Mem0Tree v (benchmark_script t) (raw_results t).

Definition update_venv (f : venv_state -> venv_state) (t : mem0_tree)
  : mem0_tree :=
  Mem0Tree (f <$> venv t) (benchmark_script t) (raw_results t).

Definition modify_disk (f : fs -> fs) : M proc unit :=
  fun p => (Ok tt, Proc (f (disk p)) (ran p)).

Definition get_disk : M proc fs := fun p => (Ok (disk p), p).

(** [subprocess.run(cmd, check=True)]: the command is run, its effect on
    the disk happens, and a non-zero exit raises [CalledProcessError]. *)
Definition subprocess_run_checked (cmd : list string) (ok : bool)
    (effect : fs -> fs) : M proc unit :=
  fun p =>
    let p' := Proc (effect (disk p)) (ran p ++ [cmd]) in
    if ok then (Ok tt, p') else (Raise (CalledProcessError cmd), p').

Definition git_clone_cmd : list string :=
  ["git"; "clone"; "https://github.com/mem0ai/mem0.git"; mem0_dir].
(** [sys.executable] is written ["python"]. *)
Definition venv_cmd : list string := ["python"; "-m"; "venv"; venv_dir].
Definition pip_mem0_cmd : list string :=
  [(venv_dir ++ "/bin/pip")%string; "install"; "-e"; mem0_dir].
Definition pip_numpy_cmd : list string :=
  [(venv_dir ++ "/bin/pip")%string; "install"; "numpy"].

Definition fresh_clone : mem0_tree := Mem0Tree None false None.

(** [setup_mem0()] (lines 17-46). *)
Definition setup_mem0 (w : world) : M proc (string * string) :=
  (* vendor_dir.mkdir(exist_ok=True) *)
  modify_disk (fun d => set_mem0 (mem0_of d) d) ;;;
  (* if mem0_dir.exists(): shutil.rmtree(mem0_dir) *)
  d <- get_disk ;;
  (if mem0_exists d then modify_disk (set_mem0 None) else ret tt) ;;;
  subprocess_run_checked git_clone_cmd (git_clone_ok w)
    (fun d => if git_clone_ok w then set_mem0 (Some fresh_clone) d else d) ;;;
  subprocess_run_checked venv_cmd (venv_ok w)
    (fun d =>
       if venv_ok w || venv_leaves_dir w
       then update_mem0 (set_venv (Some (Venv false false))) d
       else d) ;;;
  subprocess_run_checked pip_mem0_cmd (pip_mem0_ok w)
    (fun d =>
       if pip_mem0_ok w
       then update_mem0 (update_venv (fun v => Venv true (has_numpy v))) d
       else d) ;;;
  subprocess_run_checked pip_numpy_cmd (pip_numpy_ok w)
    (fun d =>
       if pip_numpy_ok w
       then update_mem0 (update_venv (fun v => Venv (has_mem0 v) true)) d
       else d) ;;;
  ret (mem0_dir, venv_dir).

(** Lines 231-237 of [main]: set the environment up unless both
    directories are already there. *)
Definition provision (w : world) : M proc (string * string) :=
  d <- get_disk ;;
  if negb (mem0_exists d && venv_exists d)
  then setup_mem0 w
  else ret (mem0_dir, venv_dir).

Definition python_path : string := (venv_dir ++ "/bin/python")%string.
Definition benchmark_script_path : string :=
  (mem0_dir ++ "/run_benchmarks.py")%string.
Definition results_file : string :=
  (mem0_dir ++ "/mem0_benchmark_results.json")%string.

(** [run_benchmarks(mem0_dir, venv_dir)] (lines 48-189): write the script,
    run it with the environment's interpreter, raise on a non-zero exit,
    then load [mem0_benchmark_results.json]. *)
Definition run_benchmarks (w : world) (env : string * string) : M proc json :=
  (* with open(benchmark_script, 'w') as f: f.write(...) *)
  d <- get_disk ;;
  t <- lift_result (match mem0_of d with
                    | Some t => Ok t
                    | None => Raise (FileNotFoundError benchmark_script_path)
                    end) ;;
  modify_disk (set_mem0 (Some (Mem0Tree (venv t) true (raw_results t)))) ;;;
  (* result = subprocess.run([python_path, benchmark_script], ...) *)
  v <- lift_result (match venv t with
                    | Some v => Ok v
                    | None => Raise (FileNotFoundError python_path)
                    end) ;;
  let result := bench w v in
  (fun p =>
     let after t' :=
       Mem0Tree (venv t') (benchmark_script t')
         (match writes result with
          | Some c => Some c
          | None => raw_results t'
          end) in
     (Ok tt, Proc (update_mem0 after (disk p))
                  (ran p ++ [[python_path; benchmark_script_path]]))) ;;;
  (if returncode result =? 0 then ret tt
   else raise (PyException "Benchmark failed")) ;;;
  (* with open(results_file, 'r') as f: results = json.load(f) *)
  d' <- get_disk ;;
  lift_result
    (match mem0_of d' with
     | Some (Mem0Tree _ _ (Some (Doc j))) => Ok j
     | Some (Mem0Tree _ _ (Some Garbage)) => Raise JSONDecodeError
     | _ => Raise (FileNotFoundError results_file)
     end).

Definition zero_summary : json :=
  JObj [("python_avg_ms", JInt 0); ("rust_avg_ms", JInt 0);
        ("speedup_factor", JInt 0)].

(** The dictionary [benchmark_results] of [format_comparison_results]
    (lines 194-213). *)
Definition comparison_report (mem0_results : json) : result json :=
  let? creation := getitem mem0_results "memory_creation" in
  let? embedding := getitem mem0_results "memory_with_embedding" in
  Ok (JObj
        [("python_results",
          JObj [("memory_creation", creation);
                ("memory_with_embedding", embedding)]);
         ("rust_results",
          JObj [("memory_creation", JObj []);
                ("memory_with_embedding", JObj [])]);
         ("comparison",
          JObj [("memory_creation", JObj []);
                ("memory_with_embedding", JObj []);
                ("summary",
                 JObj [("memory_creation", zero_summary);
                       ("memory_with_embedding", zero_summary);
                       ("overall", zero_summary)])])]).

(** [s.zfill(width)] for a string of digits. *)
Definition zfill (width : nat) (s : string) : string :=
  (string_of_list_ascii (repeat "0"%char (width - String.length s)) ++ s)%string.

(** [d.strftime("%Y%m%d_%H%M%S")] *)
Definition strftime (d : datetime) : string :=
  (zfill 4 (str (year d)) ++ zfill 2 (str (month d)) ++ zfill 2 (str (day d))
   ++ "_"
   ++ zfill 2 (str (hour d)) ++ zfill 2 (str (minute d))
   ++ zfill 2 (str (second d)))%string.

(** [f"python_mem0_results_{timestamp}.json"] *)
Definition output_name (d : datetime) : string :=
  ("python_mem0_results_" ++ strftime d ++ ".json")%string.

Definition output_file (d : datetime) : string :=
  (output_dir ++ "/" ++ output_name d)%string.

(** Lines 216-223: create the directory if it is missing and write the
    report to the file named after the current second. *)
Definition persist (w : world) (report : json) : M proc string :=
  (* output_dir.mkdir(exist_ok=True) *)
  modify_disk (fun d => Fs (vendor d) (Some (default ∅ (results_dir d)))) ;;;
  (* with open(output_file, 'w') as f: json.dump(benchmark_results, f) *)
  modify_disk
    (fun d => Fs (vendor d)
                 (Some (<[output_name (now w) := report]>
                          (default ∅ (results_dir d))))) ;;;
  ret (output_file (now w)).

(** [format_comparison_results(mem0_results)] (lines 191-226). *)
Definition format_comparison_results (w : world) (mem0_results : json)
  : M proc string :=
  report <- lift_result (comparison_report mem0_results) ;;
  persist w report.

(** The [try] block of [main]. *)
Definition main_body (w : world) : M proc string :=
  env <- provision w ;;
  results <- run_benchmarks w env ;;
  format_comparison_results w results.

(** [main()]: the exit status of the process and the state it leaves;
    any exception ends in [sys.exit(1)]. *)
Definition main (w : world) (p : proc) : Z * proc :=
  match main_body w p with
  | (Ok _, p') => (0, p')
  | (Raise _, p') => (1, p')
  end.

(** The benchmark script as a child process on a host: exit status 0 and
    [mem0_benchmark_results.json] written when [all_results] is computed,
    exit status 1 and nothing written when an exception escapes. *)
Definition script_process {G} (h : host G) (g : G) : completed :=
  match all_results h g with
  | (Ok j, _) => Completed 0 "" (Some (Doc j))
  | (Raise _, _) => Completed 1 "Traceback (most recent call last):" None
  end.

(** ** Character classes and a concrete host *)

(** ASCII letters, digits and the space, by character code. *)
Definition is_ascii_letter (c : ascii) : bool :=
  let n := nat_of_ascii c in
  ((65 <=? n) && (n <=? 90) || (97 <=? n) && (n <=? 122))%nat.

Definition is_ascii_digit (c : ascii) : bool :=
  let n := nat_of_ascii c in ((48 <=? n) && (n <=? 57))%nat.

Definition alnum_or_space (c : ascii) : bool :=
  is_ascii_letter c || is_ascii_digit c || Ascii.eqb c " ".

(** A host to run the script on: a linear congruential generator whose
    floats are the thousandths [0/1000 .. 999/1000], a clock that advances
    by one millisecond at every reading, and a store that accepts every
    record. The process state is the pair of the generator's seed and the
    clock. *)
Definition lcg_host : host (Z * Z) :=
  Host (Z * Z)
    (fun g => (Qmake (fst g mod 1000) 1000,
               ((fst g * 1103515245 + 12345) mod 2147483648, snd g)))
    (fun g => (Qmake (snd g) 1000, (fst g, snd g + 1)))
    (ret tt)
    (fun content => ret [("id", JStr content)])
    (ret (JArr [])).

(** How many times the process has run the command line [cmd]. *)
Definition runs (cmd : list string) (p : proc) : nat :=
  count_occ (@list_eq_dec string _) (ran p) cmd.

(** ** Concrete worlds *)

(** A small raw result document of the shape the script writes. *)
Definition sample_results : json :=
  JObj [("memory_creation",
         JObj [("memory_creation_10", stats_json (Stats 2 2 1 3))]);
        ("memory_with_embedding",
         JObj [("memory_with_embedding_32", stats_json (Stats 3 3 2 4))]);
        ("memory_retrieval", stats_json (Stats 1 1 1 1))].

(** The benchmark script needs mem0 and numpy in its environment: with
    both it writes [sample_results], without them its import fails. *)
Definition sample_bench (v : venv_state) : completed :=
  if has_mem0 v && has_numpy v
  then Completed 0 "" (Some (Doc sample_results))
  else Completed 1 "ModuleNotFoundError: No module named mem0" None.

Definition sample_now : datetime := DateTime 2025 1 2 3 4 5 0.

(** Every external command succeeds. *)
Definition healthy_world : world :=
  World true true false true true sample_bench sample_now.

(** [git clone] and [python -m venv] succeed, [pip install -e] fails. *)
Definition pip_fails : world :=
  World true true false false true sample_bench sample_now.

(** A machine on which the driver has never run. *)
Definition empty_proc : proc := Proc (Fs None None) [].

(** Every command succeeds, but the benchmark script exits with status 0
    without writing its result file. *)
Definition silent_world : world :=
  World true true false true true (fun _ => Completed 0 "" None) sample_now.

(** ** Timestamps *)

(** The fields of a [datetime] are in the ranges Python gives them. *)
Definition valid_datetime (d : datetime) : Prop :=
  1 <= year d <= 9999 /\ 1 <= month d <= 12 /\ 1 <= day d <= 31 /\
  0 <= hour d <= 23 /\ 0 <= minute d <= 59 /\ 0 <= second d <= 59 /\
  0 <= microsecond d <= 999999.

(** Two instants within the same wall-clock second. *)
Definition same_second (d1 d2 : datetime) : Prop :=
  year d1 = year d2 /\ month d1 = month d2 /\ day d1 = day d2 /\
  hour d1 = hour d2 /\ minute d1 = minute d2 /\ second d1 = second d2.

(** [int(s)] for a string of decimal digits. *)
Definition int_of_digits (s : string) : Z :=
  fold_left (fun acc c => 10 * acc + (Z.of_nat (nat_of_ascii c) - 48))
    (list_ascii_of_string s) 0.

(** The world [w] at the instant [d]. *)
Definition at_time (d : datetime) (w : world) : world :=
  World (git_clone_ok w) (venv_ok w) (venv_leaves_dir w) (pip_mem0_ok w)
    (pip_numpy_ok w) (bench w) d.

(** ** The statistics in IEEE double precision *)

(** The dictionary display of lines 86-91 once more, with a Python [float]
    as what it is, an IEEE 754 binary64 number. [summarize] above is the
    same display over the rationals: it fails on the same samples, and its
    mean is not rounded. *)

(** [sum(times)], as CPython computes it up to version 3.11: the additions
    are made from left to right, starting from 0, each one rounded to the
    nearest double. (From version 3.12 on the builtin compensates the
    rounding errors of the partial sums, which can change the last digit of
    the result; the result is a double all the same.) *)
Definition float_sum (times : list float) : float :=
  fold_left PrimFloat.add times 0%float.

(** [sorted(times)]: as [insert_sorted], with the comparison [x < y]. *)
Fixpoint float_insert_sorted (x : float) (l : list float) : list float :=
  match l with
  | [] => [x]
  | y :: l' =>
      if PrimFloat.ltb x y then x :: y :: l'
      else y :: float_insert_sorted x l'
  end.

Definition float_sorted (times : list float) : list float :=
  fold_left (fun acc x => float_insert_sorted x acc) times [].

(** [min(times)] and [max(times)]: the running extremum is replaced by an
    element that is strictly smaller, respectively strictly larger. *)
Definition float_min_from (x : float) (l : list float) : float :=
  fold_left (fun m y => if PrimFloat.ltb y m then y else m) l x.

Definition float_max_from (x : float) (l : list float) : float :=
  fold_left (fun m y => if PrimFloat.ltb m y then y else m) l x.

Record float_stats : Type := FloatStats {
  float_mean_ms : float;
  float_median_ms : float;
  float_min_ms : float;
  float_max_ms : float
}.

(** [float(n)] for a length [n], which is below 2^63. *)
Definition float_of_len (n : Z) : float := PrimFloat.of_uint63 (Uint63.of_Z n).

Definition summarize_float (times : list float) : result float_stats :=
  let n := Z.of_nat (length times) in
  let? mean := (if n =? 0 then Raise ZeroDivisionError
                else Ok (PrimFloat.div (float_sum times) (float_of_len n))) in
  let? median := list_getitem (float_sorted times) (n / 2) in
  match times with
  | [] => Raise ValueError
  | x :: l =>
      Ok (FloatStats mean median (float_min_from x l) (float_max_from x l))
  end.









(** * Properties *)

(** ** Results and the monad *)

Lemma rbind_ok {A B} (r : result A) (k : A -> result B) (b : B) :
  rbind r k = Ok b -> exists a, r = Ok a /\ k a = Ok b.
Proof. destruct r as [a|e]; simpl; intros H; [eauto | discriminate]. Qed.

(** ** Sorting *)

Lemma insert_sorted_perm (x : Q) (l : list Q) :
  Permutation (x :: l) (insert_sorted x l).
Proof.
  induction l as [|y l IH]; simpl; [reflexivity|].
  destruct (Qle_bool y x); [|reflexivity].
  rewrite perm_swap. now apply perm_skip.
Qed.

Lemma insert_sorted_hd (a x : Q) (l : list Q) :
  (a <= x)%Q -> HdRel Qle a l -> HdRel Qle a (insert_sorted x l).
Proof.
  intros Hax Hl. destruct l as [|y l]; simpl; [now constructor|].
  inversion_clear Hl. destruct (Qle_bool y x); now constructor.
Qed.

Lemma insert_sorted_sorted (x : Q) (l : list Q) :
  Sorted Qle l -> Sorted Qle (insert_sorted x l).
Proof.
  induction 1 as [|y l Hs IH Hhd]; simpl; [repeat constructor|].
  destruct (Qle_bool y x) eqn:E.
  - constructor; [exact IH|]. apply insert_sorted_hd; [|exact Hhd].
    now apply Qle_bool_iff.
  - constructor; [now constructor|]. constructor.
    apply Qlt_le_weak, Qnot_le_lt. intros Hle.
    apply Qle_bool_iff in Hle. congruence.
Qed.

Lemma sorted_fold (times acc : list Q) :
  Sorted Qle acc ->
  let r := fold_left (fun acc x => insert_sorted x acc) times acc in
  Sorted Qle r /\ Permutation (acc ++ times) r.
Proof.
  revert acc. induction times as [|x times IH]; simpl; intros acc Hacc.
  - split; [exact Hacc | now rewrite app_nil_r].
  - destruct (IH (insert_sorted x acc) (insert_sorted_sorted x acc Hacc))
      as [Hs Hp].
    split; [exact Hs|]. rewrite <- Hp, <- insert_sorted_perm.
    symmetry. apply Permutation_middle.
Qed.

Lemma sorted_perm (times : list Q) : Permutation times (sorted times).
Proof. apply (sorted_fold times []). constructor. Qed.

Lemma sorted_length (times : list Q) : length (sorted times) = length times.
Proof. symmetry. apply Permutation_length, sorted_perm. Qed.

(** ** Subscripts *)

Lemma list_getitem_in_range {A} (l : list A) (i : nat) (a : A) :
  nth_error l i = Some a -> list_getitem l (Z.of_nat i) = Ok a.
Proof.
  intros H. unfold list_getitem.
  assert (i < length l)%nat by (apply nth_error_Some; congruence).
  destruct (Z.ltb_spec (Z.of_nat i) 0); [lia|].
  destruct (Z.leb_spec 0 (Z.of_nat i)); [|lia].
  destruct (Z.ltb_spec (Z.of_nat i) (Z.of_nat (length l))); [|lia].
  simpl. now rewrite Nat2Z.id, H.
Qed.

(** What [summarize] returns on a non-empty sample. *)
Lemma summarize_cons (x : Q) (l : list Q) :
  exists med,
    nth_error (sorted (x :: l)) (length (x :: l) / 2) = Some med /\
    summarize (x :: l)
    = Ok (Stats (sum (x :: l) / inject_Z (Z.of_nat (length (x :: l))))%Q med
            (min_from x l) (max_from x l)).
Proof.
  set (times := x :: l).
  assert (Hn : (0 < length times)%nat) by (simpl; lia).
  destruct (nth_error (sorted times) (length times / 2)) as [med|] eqn:E.
  - exists med. split; [reflexivity|].
    pose proof (list_getitem_in_range _ _ _ E) as Hget.
    rewrite (Nat2Z.inj_div _ 2) in Hget. change (Z.of_nat 2) with 2 in Hget.
    unfold summarize. fold times.
    destruct (Z.eqb_spec (Z.of_nat (length times)) 0) as [H0|_]; [lia|].
    cbn [rbind]. rewrite Hget. reflexivity.
  - exfalso. apply nth_error_None in E. rewrite sorted_length in E.
    pose proof (Nat.div_lt (length times) 2 Hn). lia.
Qed.

(** ** The statistics aggregator *)

(** C4. The aggregator fails on a sample of length zero, with the
    [ZeroDivisionError] of the mean (this is the error the specification
    calls EmptyInputError), and on nothing else: every non-empty sample is
    summarised, and a failure of any kind means the sample was empty. *)
Theorem summarize_fails_only_on_empty :
  summarize [] = Raise ZeroDivisionError /\
  (forall (x : Q) (l : list Q), is_ok (summarize (x :: l)) = true) /\
  (forall (times : list Q),
     is_ok (summarize times) = match times with [] => false | _ => true end).
Proof.
  assert (Hcons : forall x l, is_ok (summarize (x :: l)) = true).
  { intros x l. destruct (summarize_cons x l) as (med & _ & ->). reflexivity. }
  split; [reflexivity|]. split; [exact Hcons|].
  intros [|x l]; [reflexivity | apply Hcons].
Qed.

(** ** Loops *)

Lemma repeat_n_invariant {S B} (P : nat -> B -> Prop) (body : B -> M S B) :
  (forall k acc s, P k acc ->
     exists acc' s', body acc s = (Ok acc', s') /\ P (Datatypes.S k) acc') ->
  forall n k acc s, P k acc ->
    exists acc' s', repeat_n n body acc s = (Ok acc', s') /\ P (k + n)%nat acc'.
Proof.
  intros Hbody. induction n as [|n IH]; intros k acc s HP.
  - exists acc, s. split; [reflexivity|]. now rewrite Nat.add_0_r.
  - destruct (Hbody k acc s HP) as (acc1 & s1 & E1 & HP1).
    destruct (IH (Datatypes.S k) acc1 s1 HP1) as (acc2 & s2 & E2 & HP2).
    exists acc2, s2. split.
    + cbn [repeat_n]. unfold bind. now rewrite E1.
    + now rewrite Nat.add_succ_r.
Qed.

(** ** The workload generator *)

Lemma alphabet_classes (c : ascii) : In c alphabet -> alnum_or_space c = true.
Proof.
  assert (H : forallb alnum_or_space alphabet = true) by (vm_compute; reflexivity).
  rewrite forallb_forall in H. apply H.
Qed.

Lemma Qfloor_scaled_in_range (r : Q) (n : Z) :
  (0 <= r)%Q -> (r < 1)%Q -> 0 < n -> 0 <= Qfloor (r * inject_Z n) < n.
Proof.
  intros H0 H1 Hn.
  assert (Hn' : (0 < inject_Z n)%Q) by (change 0%Q with (inject_Z 0); now rewrite <- Zlt_Qlt).
  split.
  - change 0 with (Qfloor 0). apply Qfloor_resp_le.
    apply Qmult_le_0_compat; [exact H0 | now apply Qlt_le_weak].
  - rewrite Zlt_Qlt. eapply Qle_lt_trans; [apply Qfloor_le|].
    rewrite <- (Qmult_1_l (inject_Z n)) at 2.
    now apply Qmult_lt_compat_r.
Qed.

Section Workload.
Context {G : Type} (h : host G).

(** The contract of [random.random()]: a float in [[0, 1)]. *)
Hypothesis random_unit :
  forall g : G, (0 <= fst (random h g))%Q /\ (fst (random h g) < 1)%Q.

Lemma choices_spec (population : list ascii) (k : Z) (g : G) :
  population <> [] ->
  exists cs g',
    choices h population k g = (Ok cs, g') /\
    length cs = Z.to_nat k /\ Forall (fun c => In c population) cs.
Proof.
  intros Hne. unfold choices.
  set (n := Z.of_nat (length population)).
  assert (Hn : 0 < n) by (subst n; destruct population; [easy | simpl; lia]).
  set (body := fun acc : list ascii =>
                 r <- py_random h ;;
                 c <- lift_result
                        (list_getitem population (Qfloor (r * inject_Z n))) ;;
                 ret (acc ++ [c])).
  set (P := fun (i : nat) (acc : list ascii) =>
              length acc = i /\ Forall (fun c => In c population) acc).
  assert (Hbody : forall i acc s, P i acc ->
            exists acc' s', body acc s = (Ok acc', s') /\ P (S i) acc').
  { intros i acc s [Hlen Hall]. unfold body, bind, py_random, lift_result, ret.
    pose proof (random_unit s) as [H0 H1].
    destruct (random h s) as [r s1]. simpl in H0, H1.
    pose proof (Qfloor_scaled_in_range r n H0 H1 Hn) as Hidx.
    destruct (nth_error population (Z.to_nat (Qfloor (r * inject_Z n))))
      as [c|] eqn:Enth.
    - pose proof (list_getitem_in_range _ _ _ Enth) as Hget.
      rewrite Z2Nat.id in Hget by lia. rewrite Hget.
      exists (acc ++ [c]), s1. split; [reflexivity|]. split.
      + rewrite length_app. simpl. lia.
      + apply Forall_app. split; [exact Hall|].
        constructor; [|constructor]. eapply nth_error_In, Enth.
    - apply nth_error_None in Enth. subst n. lia. }
  destruct (repeat_n_invariant P body Hbody (Z.to_nat k) 0%nat [] g)
    as (cs & g' & E & Hlen & Hall); [split; [reflexivity | constructor]|].
  exists cs, g'. split; [exact E|]. split; [exact Hlen | exact Hall].
Qed.

(** C8. For every size [S >= 0], [random_content(S)] returns a string of
    exactly [S] characters, each of them an ASCII letter, a digit or the
    space (for a negative [S] the string is empty). *)
Theorem random_content_length_and_alphabet (size : Z) (g : G) :
  exists s g',
    random_content h size g = (Ok s, g') /\
    String.length s = Z.to_nat size /\
    (0 <= size -> Z.of_nat (String.length s) = size) /\
    Forall (fun c => In c alphabet /\ alnum_or_space c = true)
      (list_ascii_of_string s).
Proof.
  destruct (choices_spec alphabet size g) as (cs & g' & E & Hlen & Hall);
    [discriminate|].
  exists (string_of_list_ascii cs), g'.
  assert (Hl : String.length (string_of_list_ascii cs) = Z.to_nat size).
  { rewrite <- Hlen. clear. induction cs; simpl; congruence. }
  split; [|split; [exact Hl | split]].
  - unfold random_content, bind, ret. now rewrite E.
  - intros Hs. rewrite Hl. lia.
  - rewrite list_ascii_of_string_of_list_ascii.
    eapply Forall_impl; [exact Hall|].
    intros c Hc. split; [exact Hc | now apply alphabet_classes].
Qed.

(** C9. For every dimension [D >= 0], [random_embedding(D)] returns a
    list of exactly [D] floats, each in the half-open interval
    [[0, 1)]. *)
Theorem random_embedding_length_and_range (dim : Z) (g : G) :
  exists v g',
    random_embedding h dim g = (Ok v, g') /\
    length v = Z.to_nat dim /\
    (0 <= dim -> Z.of_nat (length v) = dim) /\
    Forall (fun x => (0 <= x)%Q /\ (x < 1)%Q) v.
Proof.
  unfold random_embedding.
  set (body := fun acc : list Q => r <- py_random h ;; ret (acc ++ [r])).
  set (P := fun (i : nat) (acc : list Q) =>
              length acc = i /\
              Forall (fun x => (0 <= x)%Q /\ (x < 1)%Q) acc).
  assert (Hbody : forall i acc s, P i acc ->
            exists acc' s', body acc s = (Ok acc', s') /\ P (S i) acc').
  { intros i acc s [Hlen Hall]. unfold body, bind, py_random, ret.
    pose proof (random_unit s) as Hr.
    destruct (random h s) as [r s1]. simpl in Hr.
    exists (acc ++ [r]), s1. split; [reflexivity|]. split.
    - rewrite length_app. simpl. lia.
    - apply Forall_app. split; [exact Hall | now repeat constructor]. }
  destruct (repeat_n_invariant P body Hbody (Z.to_nat dim) 0%nat [] g)
    as (v & g' & E & Hlen & Hall); [split; [reflexivity | constructor]|].
  exists v, g'. split; [exact E|]. simpl in Hlen.
  split; [exact Hlen | split; [lia | exact Hall]].
Qed.
End Workload.

Lemma lcg_host_random_unit (g : Z * Z) :
  (0 <= fst (random lcg_host g))%Q /\ (fst (random lcg_host g) < 1)%Q.
Proof.
  simpl. unfold Qle, Qlt. simpl.
  pose proof (Z.mod_pos_bound (fst g) 1000). lia.
Qed.

(** C8 on the concrete host: twelve characters from seed 42. *)
Lemma random_content_witness :
  (forall g, (0 <= fst (random lcg_host g))%Q /\ (fst (random lcg_host g) < 1)%Q) /\
  0 <= 12 /\
  exists s g',
    random_content lcg_host 12 (42, 0) = (Ok s, g') /\
    Z.of_nat (String.length s) = 12 /\
    Forall (fun c => In c alphabet /\ alnum_or_space c = true)
      (list_ascii_of_string s).
Proof.
  split; [exact lcg_host_random_unit|]. split; [lia|].
  destruct (random_content_length_and_alphabet lcg_host lcg_host_random_unit
              12 (42, 0)) as (s & g' & E & _ & Hlen & Hall).
  exists s, g'. split; [exact E|]. split; [apply Hlen; lia | exact Hall].
Defined.

(** C9 on the concrete host: three floats from seed 42. *)
Lemma random_embedding_witness :
  (forall g, (0 <= fst (random lcg_host g))%Q /\ (fst (random lcg_host g) < 1)%Q) /\
  0 <= 3 /\
  exists v g',
    random_embedding lcg_host 3 (42, 0) = (Ok v, g') /\
    Z.of_nat (length v) = 3 /\
    Forall (fun x => (0 <= x)%Q /\ (x < 1)%Q) v.
Proof.
  split; [exact lcg_host_random_unit|]. split; [lia|].
  destruct (random_embedding_length_and_range lcg_host lcg_host_random_unit
              3 (42, 0)) as (v & g' & E & _ & Hlen & Hall).
  exists v, g'. split; [exact E|]. split; [apply Hlen; lia | exact Hall].
Defined.

(** ** The provisioner *)

Ltac destruct_disk p :=
  let vend := fresh "vend" in
  let res := fresh "res" in
  let log := fresh "log" in
  let v := fresh "v" in
  let sc := fresh "sc" in
  let raw := fresh "raw" in
  destruct p as [[vend res] log];
  destruct vend as [[[v sc raw]|]|];
  [destruct v as [[? ?]|] | | ].

Ltac destruct_world w :=
  let c := fresh "clone" in
  let v := fresh "venv" in
  let l := fresh "leaves" in
  let m := fresh "pipm" in
  let n := fresh "pipn" in
  let b := fresh "bench" in
  let t := fresh "now" in
  destruct w as [c v l m n b t]; destruct c, v, l, m, n.

Lemma provision_existing (w : world) (p : proc) :
  mem0_exists (disk p) && venv_exists (disk p) = true ->
  provision w p = (Ok (mem0_dir, venv_dir), p).
Proof.
  intros H. unfold provision, bind, get_disk. rewrite H. destruct p; reflexivity.
Qed.

Lemma installed_exists (d : fs) :
  installed d = true -> mem0_exists d && venv_exists d = true.
Proof.
  destruct d as [[[[[[[] []]|] sc raw]|]|] res]; cbn; intros H;
    try discriminate; reflexivity.
Qed.

Lemma provision_ok_exists (w : world) (p p1 : proc) (env : string * string) :
  provision w p = (Ok env, p1) ->
  env = (mem0_dir, venv_dir) /\
  mem0_exists (disk p1) && venv_exists (disk p1) = true.
Proof.
  destruct (mem0_exists (disk p) && venv_exists (disk p)) eqn:E.
  - rewrite (provision_existing w p E). intros [= <- <-]. now split.
  - unfold provision, bind, get_disk. rewrite E. cbn [negb].
    destruct_world w; destruct_disk p; cbn; intros [= <- <-];
      split; reflexivity.
Qed.

Ltac count_closed :=
  repeat match goal with
         | |- context [count_occ ?d [?a] ?b] =>
             let n := eval vm_compute in (count_occ d [a] b) in
             change (count_occ d [a] b) with n
         end.

(** C2. Provisioning is idempotent. On a directory that holds an installed
    environment, [provision] runs no command and returns the existing
    environment; and after any successful [provision], a second one (in
    whatever state the outside world is then) runs no command, leaves the
    disk as it is and returns the same environment, so that the fetch and
    the install have run at most once over the two calls. *)
Theorem provision_idempotent (w w' : world) (p : proc) :
  (installed (disk p) = true ->
   provision w p = (Ok (mem0_dir, venv_dir), p)) /\
  (forall (env : string * string) (p1 : proc),
     provision w p = (Ok env, p1) ->
     provision w' p1 = (Ok env, p1) /\
     (forall cmd, runs cmd (snd (provision w' p1)) = runs cmd p1) /\
     (runs git_clone_cmd p1 <= S (runs git_clone_cmd p))%nat /\
     (runs pip_mem0_cmd p1 <= S (runs pip_mem0_cmd p))%nat).
Proof.
  split.
  - intros H. apply provision_existing, installed_exists, H.
  - intros env p1 H. destruct (provision_ok_exists w p p1 env H) as [-> Hex].
    rewrite (provision_existing w' p1 Hex). split; [reflexivity|].
    split; [reflexivity|].
    destruct (mem0_exists (disk p) && venv_exists (disk p)) eqn:E.
    + rewrite (provision_existing w p E) in H. injection H as <-. lia.
    + clear Hex. revert H. unfold provision, bind, get_disk. rewrite E.
      cbn [negb]. unfold runs. revert E.
      destruct_world w; destruct_disk p; cbn; intros E; try discriminate E;
        intros [= <-]; cbn; rewrite ?count_occ_app; count_closed; lia.
Qed.

(** C2 on a fresh machine where every command succeeds: the first
    [provision] sets the environment up, the second one changes nothing. *)
Lemma provision_idempotent_witness :
  let p1 := snd (provision healthy_world empty_proc) in
  provision healthy_world empty_proc = (Ok (mem0_dir, venv_dir), p1) /\
  installed (disk p1) = true /\
  provision pip_fails p1 = (Ok (mem0_dir, venv_dir), p1) /\
  runs pip_mem0_cmd p1 = 1%nat /\
  runs pip_mem0_cmd (snd (provision pip_fails p1)) = 1%nat.
Proof.
  intros p1.
  assert (H1 : provision healthy_world empty_proc = (Ok (mem0_dir, venv_dir), p1))
    by (vm_compute; reflexivity).
  assert (Hi : installed (disk p1) = true) by (vm_compute; reflexivity).
  assert (Hr : runs pip_mem0_cmd p1 = 1%nat) by (vm_compute; reflexivity).
  destruct (provision_idempotent healthy_world pip_fails empty_proc)
    as [_ Hsecond].
  destruct (provision_idempotent pip_fails pip_fails p1) as [Hfirst _].
  destruct (Hsecond _ _ H1) as (H2 & Hruns & _).
  split; [exact H1|]. split; [exact Hi|]. split; [exact (Hfirst Hi)|].
  split; [exact Hr|]. rewrite Hruns. exact Hr.
Defined.

(** C1, at the input on which the driver departs from it: on a fresh
    machine [git clone] and [python -m venv] succeed and [pip install -e]
    fails. The run aborts with exit status 1 and the environment is not
    installed; yet the clone and its [venv] directory stay on disk, so that
    every later [provision] finds both, takes the environment for an
    installed one and runs no command, and a later run in which every
    command would succeed fails in the benchmark script. *)
Theorem failed_install_is_reused :
  let p1 := snd (main pip_fails empty_proc) in
  fst (main pip_fails empty_proc) = 1 /\
  fst (provision pip_fails empty_proc)
  = Raise (CalledProcessError pip_mem0_cmd) /\
  installed (disk p1) = false /\
  mem0_exists (disk p1) && venv_exists (disk p1) = true /\
  (forall w', provision w' p1 = (Ok (mem0_dir, venv_dir), p1)) /\
  fst (main healthy_world p1) = 1 /\
  runs git_clone_cmd (snd (main healthy_world p1)) = 1%nat /\
  runs pip_mem0_cmd (snd (main healthy_world p1)) = 1%nat.
Proof.
  intros p1. repeat split; vm_compute; reflexivity.
Qed.

(** ** The driver *)

Lemma provision_results_dir (w : world) (p p' : proc)
    (r : result (string * string)) :
  provision w p = (r, p') -> results_dir (disk p') = results_dir (disk p).
Proof.
  unfold provision, bind, get_disk.
  destruct_world w; destruct_disk p; cbn; intros [= <- <-]; reflexivity.
Qed.

Lemma run_benchmarks_results_dir (w : world) (env : string * string)
    (p p' : proc) (r : result json) :
  run_benchmarks w env p = (r, p') ->
  results_dir (disk p') = results_dir (disk p).
Proof.
  unfold run_benchmarks, bind, get_disk, lift_result, modify_disk, ret, raise.
  destruct_disk p; cbn; try (intros [= <- <-]; reflexivity).
  destruct (returncode (bench w _) =? 0); cbn;
    [|intros [= <- <-]; reflexivity].
  destruct (writes (bench w _)) as [[j|]|]; cbn;
    intros [= <- <-]; reflexivity.
Qed.




Lemma format_comparison_results_ok (w : world) (j : json) (p p' : proc)
    (path : string) :
  format_comparison_results w j p = (Ok path, p') ->
  path = output_file (now w) /\
  exists (files : gmap string json) (report : json),
    comparison_report j = Ok report /\
    results_dir (disk p') = Some files /\
    files !! output_name (now w) = Some report.
Proof.
  unfold format_comparison_results, bind, lift_result, persist, modify_disk, ret.
  destruct (comparison_report j) as [report|]; cbn; [|discriminate].
  intros [= <- <-]. split; [reflexivity|]. cbn.
  eexists _, report. split; [reflexivity|]. split; [reflexivity|].
  apply lookup_insert_eq.
Qed.

(** The [try] block of [main], step by step. *)
Lemma main_body_steps (w : world) (p : proc) :
  main_body w p =
  match provision w p with
  | (Ok env, p1) =>
      match run_benchmarks w env p1 with
      | (Ok results, p2) => format_comparison_results w results p2
      | (Raise e, p2) => (Raise e, p2)
      end
  | (Raise e, p1) => (Raise e, p1)
  end.
Proof. reflexivity. Qed.



(** ** The comparison assembler *)

Lemma comparison_report_ok (m creation embedding : json) :
  getitem m "memory_creation" = Ok creation ->
  getitem m "memory_with_embedding" = Ok embedding ->
  comparison_report m
  = Ok (JObj
          [("python_results",
            JObj [("memory_creation", creation);
                  ("memory_with_embedding", embedding)]);
           ("rust_results",
            JObj [("memory_creation", JObj []);
                  ("memory_with_embedding", JObj [])]);
           ("comparison",
            JObj [("memory_creation", JObj []);
                  ("memory_with_embedding", JObj []);
                  ("summary",
                   JObj [("memory_creation", zero_summary);
                         ("memory_with_embedding", zero_summary);
                         ("overall", zero_summary)])])]).
Proof. intros Hc He. unfold comparison_report. now rewrite Hc, He. Qed.

Lemma comparison_report_inv (m r : json) :
  comparison_report m = Ok r ->
  exists creation embedding,
    getitem m "memory_creation" = Ok creation /\
    getitem m "memory_with_embedding" = Ok embedding.
Proof.
  unfold comparison_report.
  destruct (getitem m "memory_creation") as [c|]; [|discriminate].
  destruct (getitem m "memory_with_embedding") as [e|]; [|discriminate].
  eauto.
Qed.

(** C3, as the specification states it, fails on the reference side: with
    no reference data the assembler raises [KeyError] and no report, with
    or without placeholders, is produced or written. *)
Lemma comparison_report_needs_reference :
  comparison_report (JObj []) = Raise (KeyError "memory_creation") /\
  comparison_report (JObj [("memory_creation", JObj [])])
  = Raise (KeyError "memory_with_embedding") /\
  format_comparison_results healthy_world (JObj []) empty_proc
  = (Raise (KeyError "memory_creation"), empty_proc).
Proof. repeat split; reflexivity. Qed.

(** C3, amended. For every reference-side result set that has the entries
    [memory_creation] and [memory_with_embedding], the report has exactly
    the top-level keys [python_results], [rust_results] and [comparison];
    the candidate side is not an input: [rust_results] is always present,
    with an empty placeholder object for each suite; [comparison] has the
    per-suite entries and a [summary] whose three entries are zero-valued
    ([python_avg_ms], [rust_avg_ms] and [speedup_factor] all 0). Every
    result set that lacks [memory_creation], and every one that has it and
    lacks [memory_with_embedding], makes the assembler raise the [KeyError]
    of the missing entry; no report is produced and nothing is written. *)
Theorem comparison_report_shape :
  (forall m creation embedding : json,
     getitem m "memory_creation" = Ok creation ->
     getitem m "memory_with_embedding" = Ok embedding ->
     exists r python rust comparison summary,
       comparison_report m = Ok r /\
       json_keys r = ["python_results"; "rust_results"; "comparison"] /\
       getitem r "python_results" = Ok python /\
       getitem r "rust_results" = Ok rust /\
       getitem r "comparison" = Ok comparison /\
       python = JObj [("memory_creation", creation);
                      ("memory_with_embedding", embedding)] /\
       rust = JObj [("memory_creation", JObj []);
                    ("memory_with_embedding", JObj [])] /\
       json_keys comparison
       = ["memory_creation"; "memory_with_embedding"; "summary"] /\
       getitem comparison "memory_creation" = Ok (JObj []) /\
       getitem comparison "memory_with_embedding" = Ok (JObj []) /\
       getitem comparison "summary" = Ok summary /\
       json_keys summary
       = ["memory_creation"; "memory_with_embedding"; "overall"] /\
       (forall k v, getitem summary k = Ok v ->
          v = JObj [("python_avg_ms", JInt 0); ("rust_avg_ms", JInt 0);
                    ("speedup_factor", JInt 0)])) /\
  (forall (d : dict) (w : world) (p : proc),
     dict_get d "memory_creation" = None ->
     comparison_report (JObj d) = Raise (KeyError "memory_creation") /\
     format_comparison_results w (JObj d) p
     = (Raise (KeyError "memory_creation"), p)) /\
  (forall (d : dict) (creation : json) (w : world) (p : proc),
     dict_get d "memory_creation" = Some creation ->
     dict_get d "memory_with_embedding" = None ->
     comparison_report (JObj d) = Raise (KeyError "memory_with_embedding") /\
     format_comparison_results w (JObj d) p
     = (Raise (KeyError "memory_with_embedding"), p)).
Proof.
  split; [|split].
  - intros m creation embedding Hc He.
    rewrite (comparison_report_ok m creation embedding Hc He).
    do 5 eexists. repeat (split; [reflexivity|]).
    intros k v. unfold getitem. cbn [dict_get].
    destruct (String.eqb "memory_creation" k); [now intros [= <-]|].
    destruct (String.eqb "memory_with_embedding" k); [now intros [= <-]|].
    destruct (String.eqb "overall" k); [now intros [= <-] | discriminate].
  - intros d w p Hc.
    assert (E : comparison_report (JObj d) = Raise (KeyError "memory_creation"))
      by (unfold comparison_report, getitem; now rewrite Hc).
    split; [exact E|].
    unfold format_comparison_results, bind, lift_result. now rewrite E.
  - intros d creation w p Hc He.
    assert (E : comparison_report (JObj d)
                = Raise (KeyError "memory_with_embedding"))
      by (unfold comparison_report, getitem; now rewrite Hc, He).
    split; [exact E|].
    unfold format_comparison_results, bind, lift_result. now rewrite E.
Qed.

(** C3 amended, on the sample result set, on the empty result set and on a
    result set with the first suite only. *)
Lemma comparison_report_shape_witness :
  (exists r rust,
     comparison_report sample_results = Ok r /\
     json_keys r = ["python_results"; "rust_results"; "comparison"] /\
     getitem r "rust_results" = Ok rust /\
     rust = JObj [("memory_creation", JObj []);
                  ("memory_with_embedding", JObj [])]) /\
  format_comparison_results healthy_world (JObj []) empty_proc
  = (Raise (KeyError "memory_creation"), empty_proc) /\
  format_comparison_results healthy_world
    (JObj [("memory_creation", JObj [])]) empty_proc
  = (Raise (KeyError "memory_with_embedding"), empty_proc).
Proof.
  destruct comparison_report_shape as (Hshape & Hfirst & Hsecond).
  split; [|split].
  - destruct (Hshape sample_results
                (JObj [("memory_creation_10", stats_json (Stats 2 2 1 3))])
                (JObj [("memory_with_embedding_32",
                        stats_json (Stats 3 3 2 4))]))
      as (r & python & rust & comparison & summary & H);
      [reflexivity | reflexivity |].
    destruct H as (Hr & Hk & _ & Hrust & _ & _ & Erust & _).
    exists r, rust. repeat split; assumption.
  - apply (Hfirst [] healthy_world empty_proc). reflexivity.
  - apply (Hsecond [("memory_creation", JObj [])] (JObj [])
             healthy_world empty_proc); reflexivity.
Defined.

Lemma bind_ok {S A B} (c : M S A) (k : A -> M S B) (s s' : S) (b : B) :
  bind c k s = (Ok b, s') ->
  exists a s1, c s = (Ok a, s1) /\ k a s1 = (Ok b, s').
Proof.
  unfold bind. destruct (c s) as [[a|e] s1]; [eauto | discriminate].
Qed.

Lemma for_each_ok_invariant {S A B} (P : B -> Prop) (body : B -> A -> M S B) :
  (forall acc x s acc' s', body acc x s = (Ok acc', s') -> P acc -> P acc') ->
  forall xs acc s acc' s',
    for_each xs body acc s = (Ok acc', s') -> P acc -> P acc'.
Proof.
  intros Hbody. induction xs as [|x xs IH]; intros acc s acc' s'.
  - now intros [= <- <-].
  - cbn [for_each]. intros H HP.
    apply bind_ok in H. destruct H as (acc1 & s1 & E1 & E2).
    eapply IH; [exact E2|]. eapply Hbody; eauto.
Qed.

Lemma mentions_obj (k : string) (d : dict) :
  mentions k (JObj d)
  = existsb (fun kv => String.eqb (fst kv) k || mentions k (snd kv)) d.
Proof. reflexivity. Qed.

Lemma mentions_dict_set (k key : string) (d : dict) (v : json) :
  mentions k (JObj d) = false ->
  String.eqb key k = false -> mentions k v = false ->
  mentions k (JObj (dict_set d key v)) = false.
Proof.
  rewrite !mentions_obj. intros Hd Hkey Hv.
  induction d as [|[k' v'] d IH]; cbn [dict_set existsb fst snd].
  - now rewrite Hkey, Hv.
  - cbn [existsb fst snd] in Hd. apply orb_false_iff in Hd as [Hhd Htl].
    destruct (String.eqb k' key) eqn:E; cbn [existsb fst snd].
    + apply String.eqb_eq in E. subst k'. now rewrite Hkey, Hv, Htl.
    + now rewrite Hhd, IH.
Qed.

Lemma store_stats_mentions {G} (key : string) (results results' : dict)
    (times : list Q) (g g' : G) :
  store_stats results key times g = (Ok results', g') ->
  String.eqb key "memory_retrieval" = false ->
  mentions "memory_retrieval" (JObj results) = false ->
  mentions "memory_retrieval" (JObj results') = false.
Proof.
  unfold store_stats, bind, lift_result, ret.
  destruct (summarize times) as [s|]; [|discriminate].
  intros [= <- <-] Hkey Hres.
  apply mentions_dict_set; [exact Hres | exact Hkey | reflexivity].
Qed.

Section ScriptResults.
Context {G : Type} (h : host G).

Lemma benchmark_memory_creation_mentions (sizes : list Z) (iterations : Z)
    (g g' : G) (results : dict) :
  benchmark_memory_creation h sizes iterations g = (Ok results, g') ->
  mentions "memory_retrieval" (JObj results) = false.
Proof.
  intros H.
  eapply (for_each_ok_invariant
            (fun d => mentions "memory_retrieval" (JObj d) = false));
    [| exact H | reflexivity].
  intros acc size s acc' s' Hb Hacc. apply bind_ok in Hb.
  destruct Hb as (times & s1 & _ & Hstore).
  eapply store_stats_mentions; [exact Hstore | reflexivity | exact Hacc].
Qed.

Lemma benchmark_memory_with_embedding_mentions (dims : list Z)
    (iterations : Z) (g g' : G) (results : dict) :
  benchmark_memory_with_embedding h dims iterations g = (Ok results, g') ->
  mentions "memory_retrieval" (JObj results) = false.
Proof.
  intros H.
  eapply (for_each_ok_invariant
            (fun d => mentions "memory_retrieval" (JObj d) = false));
    [| exact H | reflexivity].
  intros acc size s acc' s' Hb Hacc. apply bind_ok in Hb.
  destruct Hb as (times & s1 & _ & Hstore).
  eapply store_stats_mentions; [exact Hstore | reflexivity | exact Hacc].
Qed.

(** What the script writes: the three suites, [memory_retrieval] among
    them, the first two without any key [memory_retrieval] inside. *)
Lemma all_results_shape (g g' : G) (j : json) :
  all_results h g = (Ok j, g') ->
  exists (creation embedding : dict) (retrieval : json),
    j = JObj [("memory_creation", JObj creation);
              ("memory_with_embedding", JObj embedding);
              ("memory_retrieval", retrieval)] /\
    mentions "memory_retrieval" (JObj creation) = false /\
    mentions "memory_retrieval" (JObj embedding) = false.
Proof.
  unfold all_results. intros H.
  apply bind_ok in H. destruct H as (_ & g1 & _ & H).
  apply bind_ok in H. destruct H as (creation & g2 & Hc & H).
  apply bind_ok in H. destruct H as (embedding & g3 & He & H).
  apply bind_ok in H. destruct H as (retr & g4 & _ & H).
  apply bind_ok in H. destruct H as (retrieval & g5 & _ & H).
  injection H as <- <-.
  exists creation, embedding, retrieval. split; [reflexivity|]. split.
  - eapply benchmark_memory_creation_mentions, Hc.
  - eapply benchmark_memory_with_embedding_mentions, He.
Qed.
End ScriptResults.

(** C10. Whatever result set the assembler is given, the report it
    persists has a [python_results] object with exactly the keys
    [memory_creation] and [memory_with_embedding]; the report is determined
    by these two entries of the result set alone, and the key
    [memory_retrieval] occurs nowhere in it unless it occurs inside one of
    the two entries. For the result set the benchmark script writes, which
    does have a [memory_retrieval] entry, the key therefore occurs nowhere
    in the persisted report. *)
Theorem memory_retrieval_never_reported :
  (forall (w : world) (m : json) (p p' : proc) (path : string),
     format_comparison_results w m p = (Ok path, p') ->
     exists (files : gmap string json) (r python creation embedding : json),
       results_dir (disk p') = Some files /\
       files !! output_name (now w) = Some r /\
       getitem r "python_results" = Ok python /\
       json_keys python = ["memory_creation"; "memory_with_embedding"] /\
       getitem m "memory_creation" = Ok creation /\
       getitem m "memory_with_embedding" = Ok embedding /\
       (forall m' : json,
          getitem m' "memory_creation" = Ok creation ->
          getitem m' "memory_with_embedding" = Ok embedding ->
          comparison_report m' = Ok r) /\
       (mentions "memory_retrieval" creation = false ->
        mentions "memory_retrieval" embedding = false ->
        mentions "memory_retrieval" r = false)) /\
  (forall (G : Type) (h : host G) (g g' : G) (j : json)
          (w : world) (p p' : proc) (path : string),
     all_results h g = (Ok j, g') ->
     format_comparison_results w j p = (Ok path, p') ->
     is_ok (getitem j "memory_retrieval") = true /\
     exists (files : gmap string json) (r : json),
       results_dir (disk p') = Some files /\
       files !! output_name (now w) = Some r /\
       mentions "memory_retrieval" r = false).
Proof.
  assert (Hfirst : forall w m p p' path,
     format_comparison_results w m p = (Ok path, p') ->
     exists (files : gmap string json) (r python creation embedding : json),
       results_dir (disk p') = Some files /\
       files !! output_name (now w) = Some r /\
       getitem r "python_results" = Ok python /\
       json_keys python = ["memory_creation"; "memory_with_embedding"] /\
       getitem m "memory_creation" = Ok creation /\
       getitem m "memory_with_embedding" = Ok embedding /\
       (forall m' : json,
          getitem m' "memory_creation" = Ok creation ->
          getitem m' "memory_with_embedding" = Ok embedding ->
          comparison_report m' = Ok r) /\
       (mentions "memory_retrieval" creation = false ->
        mentions "memory_retrieval" embedding = false ->
        mentions "memory_retrieval" r = false)).
  { intros w m p p' path H.
    apply format_comparison_results_ok in H.
    destruct H as (_ & files & r & Hr & Hdir & Hfile).
    destruct (comparison_report_inv m r Hr) as (c & e & Hc & He).
    rewrite (comparison_report_ok m c e Hc He) in Hr. injection Hr as <-.
    exists files. do 4 eexists.
    split; [exact Hdir|]. split; [exact Hfile|].
    split; [reflexivity|]. split; [reflexivity|].
    split; [exact Hc|]. split; [exact He|]. split.
    - intros m' Hc' He'. apply comparison_report_ok; assumption.
    - intros Mc Me. rewrite mentions_obj. cbn [existsb fst snd].
      rewrite (mentions_obj _ [("memory_creation", c); _]).
      cbn [existsb fst snd]. rewrite Mc, Me. reflexivity. }
  split; [exact Hfirst|].
  intros G h g g' j w p p' path Hall Hfmt.
  destruct (all_results_shape h g g' j Hall) as (cr & em & re & -> & Mc & Me).
  split; [reflexivity|].
  destruct (Hfirst w _ p p' path Hfmt)
    as (files & r & python & c & e & Hdir & Hfile & _ & _ & Hc & He & _ & Hm).
  injection Hc as <-. injection He as <-.
  exists files, r. split; [exact Hdir|]. split; [exact Hfile|].
  apply Hm; assumption.
Qed.

(** ** The script completes on a host whose store never fails *)

Lemma for_each_total {S A B} (body : B -> A -> M S B) :
  (forall acc x s, exists acc' s', body acc x s = (Ok acc', s')) ->
  forall xs acc s, exists acc' s', for_each xs body acc s = (Ok acc', s').
Proof.
  intros Hbody. induction xs as [|x xs IH]; intros acc s.
  - exists acc, s. reflexivity.
  - destruct (Hbody acc x s) as (acc1 & s1 & E1).
    destruct (IH acc1 s1) as (acc2 & s2 & E2).
    exists acc2, s2. cbn [for_each]. unfold bind. now rewrite E1.
Qed.

Lemma store_stats_total {G} (results : dict) (key : string) (x : Q)
    (times : list Q) (g : G) :
  exists results', store_stats results key (x :: times) g = (Ok results', g).
Proof.
  unfold store_stats, bind, lift_result, ret.
  destruct (summarize_cons x times) as (med & _ & ->). eauto.
Qed.

Section ScriptTotal.
Context {G : Type} (h : host G).

Hypothesis random_unit :
forall g : G, (0 <= fst (random h g))%Q /\ (fst (random h g) < 1)%Q.
Hypothesis memory_init_ok : forall g, exists g', memory_init h g = (Ok tt, g').
Hypothesis m_add_ok :
forall content g, exists d g', m_add h content g = (Ok d, g').
Hypothesis m_get_all_ok : forall g, exists j g', m_get_all h g = (Ok j, g').

Lemma random_content_total (size : Z) (g : G) :
exists s g', random_content h size g = (Ok s, g').
Proof.
destruct (choices_spec h random_unit alphabet size g) as (cs & g' & E & _);
  [discriminate|].
eexists _, g'. unfold random_content, bind, ret. now rewrite E.
Qed.

Lemma random_embedding_total (dim : Z) (g : G) :
exists v g', random_embedding h dim g = (Ok v, g').
Proof.
unfold random_embedding.
destruct (repeat_n_invariant (fun _ (_ : list Q) => True)
            (fun acc => r <- py_random h ;; ret (acc ++ [r]))) with
  (n := Z.to_nat dim) (k := 0%nat) (acc := @nil Q) (s := g)
  as (v & g' & E & _); [| exact I | eauto].
intros _ acc s _. unfold bind, py_random, ret.
destruct (random h s) as [r s1]. eauto.
Qed.

Lemma timed_total {A} (op : M G A) (times : list Q) (g : G) :
(forall s, exists a s', op s = (Ok a, s')) ->
exists t g', timed h op times g = (Ok (times ++ [t]), g').
Proof.
intros Hop. unfold timed, bind, py_time, ret.
destruct (time h g) as [start g1].
destruct (Hop g1) as (a & g2 & ->).
destruct (time h g2) as [stop g3]. eauto.
Qed.

(** A loop of timed calls collects one latency per iteration. *)
Lemma timed_loop_total (body : list Q -> M G (list Q)) (n : nat) (g : G) :
(forall times s, exists t s', body times s = (Ok (times ++ [t]), s')) ->
exists times g',
  repeat_n n body [] g = (Ok times, g') /\ length times = n.
Proof.
intros Hbody.
destruct (repeat_n_invariant (fun i (acc : list Q) => length acc = i) body)
  with (n := n) (k := 0%nat) (acc := @nil Q) (s := g)
  as (times & g' & E & Hlen); [| reflexivity | eauto].
intros i acc s Hacc. destruct (Hbody acc s) as (t & s' & E).
exists (acc ++ [t]), s'. split; [exact E|].
rewrite length_app. simpl. lia.
Qed.

Lemma timed_stats_total (body : list Q -> M G (list Q)) (results : dict)
  (key : string) (iterations : Z) (g : G) :
0 < iterations ->
(forall times s, exists t s', body times s = (Ok (times ++ [t]), s')) ->
exists results' g',
  (times <- repeat_n (Z.to_nat iterations) body [] ;;
   store_stats results key times) g = (Ok results', g').
Proof.
intros Hit Hbody.
destruct (timed_loop_total body (Z.to_nat iterations) g Hbody)
  as (times & g' & E & Hlen).
destruct times as [|x times]; [simpl in Hlen; lia|].
destruct (store_stats_total results key x times g') as (results' & Es).
exists results', g'. unfold bind. now rewrite E.
Qed.

Lemma benchmark_memory_creation_total (sizes : list Z) (iterations : Z)
  (g : G) :
0 < iterations ->
exists results g',
  benchmark_memory_creation h sizes iterations g = (Ok results, g').
Proof.
intros Hit. apply for_each_total. intros results size s.
apply timed_stats_total; [exact Hit|].
intros times s0. unfold bind.
destruct (random_content_total size s0) as (c & s1 & ->).
apply timed_total. intros s2. apply m_add_ok.
Qed.

Lemma benchmark_memory_with_embedding_total (dims : list Z) (iterations : Z)
  (g : G) :
0 < iterations ->
exists results g',
  benchmark_memory_with_embedding h dims iterations g = (Ok results, g').
Proof.
intros Hit. apply for_each_total. intros results dim s.
apply timed_stats_total; [exact Hit|].
intros times s0. unfold bind.
destruct (random_content_total 100 s0) as (c & s1 & ->).
destruct (random_embedding_total dim s1) as (v & s2 & ->).
apply timed_total. intros s3. apply m_add_ok.
Qed.

Lemma benchmark_memory_retrieval_total (iterations : Z) (g : G) :
0 < iterations ->
exists (s : json) (g' : G),
  benchmark_memory_retrieval h iterations g
  = (Ok [("memory_retrieval", s)], g').
Proof.
intros Hit. unfold benchmark_memory_retrieval.
destruct (repeat_n_invariant (fun _ (_ : list json) => True)
            (fun memory_ids =>
               content <- random_content h 1000 ;;
               result <- m_add h content ;;
               match result, dict_get result "id" with
               | _ :: _, Some id => ret (memory_ids ++ [id])
               | _, _ => ret memory_ids
               end))
  with (n := 10%nat) (k := 0%nat) (acc := @nil json) (s := g)
  as (ids & g1 & E1 & _); [| exact I |].
{ intros _ acc s _. unfold bind.
  destruct (random_content_total 1000 s) as (c & s1 & ->).
  destruct (m_add_ok c s1) as (d & s2 & ->).
  destruct d as [|kv d]; [eauto|].
  destruct (dict_get (kv :: d) "id"); unfold ret; eauto. }
destruct (timed_loop_total (timed h (m_get_all h)) (Z.to_nat iterations) g1)
  as (times & g2 & E2 & Hlen).
{ intros times s. apply timed_total, m_get_all_ok. }
destruct times as [|x times]; [simpl in Hlen; lia|].
unfold bind at 1. rewrite E1. unfold bind at 1. rewrite E2.
unfold store_stats, bind, lift_result, ret.
destruct (summarize_cons x times) as (med & _ & ->).
eexists _, g2. reflexivity.
Qed.

(** On such a host the script runs to its end. *)
Lemma all_results_total (g : G) :
exists j g', all_results h g = (Ok j, g').
Proof.
unfold all_results.
destruct (memory_init_ok g) as (g1 & E1).
destruct (benchmark_memory_creation_total content_sizes 10 g1)
  as (cr & g2 & E2); [lia|].
destruct (benchmark_memory_with_embedding_total embedding_dims 10 g2)
  as (em & g3 & E3); [lia|].
destruct (benchmark_memory_retrieval_total 10 g3) as (s & g4 & E4); [lia|].
eexists _, g4. unfold bind at 1. rewrite E1.
unfold bind at 1. rewrite E2. unfold bind at 1. rewrite E3.
unfold bind at 1. rewrite E4. reflexivity.
Qed.
End ScriptTotal.

Lemma format_comparison_results_total (w : world) (m creation embedding : json)
    (p : proc) :
  getitem m "memory_creation" = Ok creation ->
  getitem m "memory_with_embedding" = Ok embedding ->
  exists p', format_comparison_results w m p = (Ok (output_file (now w)), p').
Proof.
  intros Hc He. unfold format_comparison_results, bind, lift_result.
  rewrite (comparison_report_ok m creation embedding Hc He).
  eexists. reflexivity.
Qed.

Lemma lcg_host_store_ok :
  (forall g, exists g', memory_init lcg_host g = (Ok tt, g')) /\
  (forall content g, exists d g', m_add lcg_host content g = (Ok d, g')) /\
  (forall g, exists j g', m_get_all lcg_host g = (Ok j, g')).
Proof. repeat split; intros; cbn; unfold ret; eauto. Qed.

(** C10 on the sample result set, and on the result set the script writes
    when it runs on the concrete host. *)
Lemma memory_retrieval_never_reported_witness :
  (exists (p' : proc) (files : gmap string json) (r : json),
     format_comparison_results healthy_world sample_results empty_proc
     = (Ok (output_file sample_now), p') /\
     results_dir (disk p') = Some files /\
     files !! output_name sample_now = Some r /\
     mentions "memory_retrieval" sample_results = true /\
     mentions "memory_retrieval" r = false) /\
  (exists (j : json) (g' : Z * Z) (p' : proc) (files : gmap string json)
          (r : json),
     all_results lcg_host (42, 0) = (Ok j, g') /\
     format_comparison_results healthy_world j empty_proc
     = (Ok (output_file sample_now), p') /\
     is_ok (getitem j "memory_retrieval") = true /\
     results_dir (disk p') = Some files /\
     files !! output_name sample_now = Some r /\
     mentions "memory_retrieval" r = false).
Proof.
  destruct memory_retrieval_never_reported as [Hany Hscript].
  split.
  - destruct (format_comparison_results_total healthy_world sample_results
                _ _ empty_proc eq_refl eq_refl) as (p' & E).
    destruct (Hany _ _ _ _ _ E)
      as (files & r & python & c & e & Hdir & Hfile & _ & _ & Hc & He & _ & Hm).
    exists p', files, r. split; [exact E|]. split; [exact Hdir|].
    split; [exact Hfile|]. split; [reflexivity|].
    injection Hc as <-. injection He as <-. apply Hm; reflexivity.
  - destruct lcg_host_store_ok as (Hinit & Hadd & Hget).
    destruct (all_results_total lcg_host lcg_host_random_unit Hinit Hadd Hget
                (42, 0)) as (j & g' & Hall).
    destruct (all_results_shape lcg_host _ _ _ Hall)
      as (cr & em & re & Hj & _).
    destruct (format_comparison_results_total healthy_world j
                (JObj cr) (JObj em) empty_proc) as (p' & E);
      [subst j; reflexivity | subst j; reflexivity |].
    destruct (Hscript _ lcg_host _ _ _ healthy_world _ _ _ Hall E)
      as (Hretr & files & r & Hdir & Hfile & Hm).
    exists j, g', p', files, r.
    split; [exact Hall|]. split; [exact E|]. split; [exact Hretr|].
    split; [exact Hdir|]. split; [exact Hfile | exact Hm].
Defined.

(** ** The result serializer *)

Lemma append_nil (b : string) : ("" ++ b)%string = b.
Proof. reflexivity. Qed.

Lemma append_cons (x : ascii) (a b : string) :
  (String x a ++ b)%string = String x (a ++ b)%string.
Proof. reflexivity. Qed.

Lemma string_app_assoc (a b c : string) :
  ((a ++ b) ++ c)%string = (a ++ (b ++ c))%string.
Proof.
  induction a as [|x a IH]; rewrite ?append_nil, ?append_cons;
    [reflexivity | now rewrite IH].
Qed.

Lemma string_app_inv_head (a b c : string) :
  (a ++ b)%string = (a ++ c)%string -> b = c.
Proof.
  induction a as [|x a IH]; rewrite ?append_nil, ?append_cons;
    [tauto | intros [= H]; auto].
Qed.

Lemma string_app_inj_length (a a' b b' : string) :
  String.length a = String.length a' ->
  (a ++ b)%string = (a' ++ b')%string -> a = a' /\ b = b'.
Proof.
  revert a'. induction a as [|x a IH]; intros [|x' a']; simpl;
    try discriminate; rewrite ?append_nil, ?append_cons.
  - now intros _ ->.
  - intros [= Hlen] [= -> H]. destruct (IH a' Hlen H) as [-> ->]. now split.
Qed.

(** A number below [bound], zero-filled to [width] digits, has exactly
    [width] characters and reads back as the number. *)
Definition zfill_ok (width : nat) (n : Z) : bool :=
  (String.length (zfill width (str n)) =? width)%nat
  && (int_of_digits (zfill width (str n)) =? n).

Lemma zfill_ok_below (width : nat) (bound : Z) :
  forallb (zfill_ok width) (map Z.of_nat (seq 0 (Z.to_nat bound))) = true ->
  forall n, 0 <= n < bound ->
    String.length (zfill width (str n)) = width /\
    int_of_digits (zfill width (str n)) = n.
Proof.
  intros Hall n Hn. rewrite forallb_forall in Hall.
  assert (Hin : In n (map Z.of_nat (seq 0 (Z.to_nat bound)))).
  { apply in_map_iff. exists (Z.to_nat n). split; [lia|].
    apply in_seq. lia. }
  specialize (Hall n Hin). unfold zfill_ok in Hall.
  apply andb_true_iff in Hall as [H1 H2].
  split; [now apply Nat.eqb_eq | now apply Z.eqb_eq].
Qed.

Lemma zfill2 (n : Z) :
  0 <= n < 100 ->
  String.length (zfill 2 (str n)) = 2%nat /\
  int_of_digits (zfill 2 (str n)) = n.
Proof. apply (zfill_ok_below 2 100). vm_compute. reflexivity. Qed.

Lemma zfill4 (n : Z) :
  0 <= n < 10000 ->
  String.length (zfill 4 (str n)) = 4%nat /\
  int_of_digits (zfill 4 (str n)) = n.
Proof. apply (zfill_ok_below 4 10000). vm_compute. reflexivity. Qed.

Lemma zfill2_inj (a b : Z) :
  0 <= a < 100 -> 0 <= b < 100 ->
  zfill 2 (str a) = zfill 2 (str b) -> a = b.
Proof.
  intros Ha Hb H. destruct (zfill2 a Ha) as [_ <-].
  destruct (zfill2 b Hb) as [_ <-]. now rewrite H.
Qed.

Lemma zfill4_inj (a b : Z) :
  0 <= a < 10000 -> 0 <= b < 10000 ->
  zfill 4 (str a) = zfill 4 (str b) -> a = b.
Proof.
  intros Ha Hb H. destruct (zfill4 a Ha) as [_ <-].
  destruct (zfill4 b Hb) as [_ <-]. now rewrite H.
Qed.

Lemma strftime_same_second (d1 d2 : datetime) :
  same_second d1 d2 -> strftime d1 = strftime d2.
Proof.
  intros (Hy & Hmo & Hd & Hh & Hmi & Hs). unfold strftime.
  now rewrite Hy, Hmo, Hd, Hh, Hmi, Hs.
Qed.

Lemma strftime_inj (d1 d2 : datetime) :
  valid_datetime d1 -> valid_datetime d2 ->
  (strftime d1 ++ ".json")%string = (strftime d2 ++ ".json")%string ->
  same_second d1 d2.
Proof.
  intros (Hy1 & Hmo1 & Hd1 & Hh1 & Hmi1 & Hs1 & _)
         (Hy2 & Hmo2 & Hd2 & Hh2 & Hmi2 & Hs2 & _).
  unfold strftime. rewrite !string_app_assoc.
  assert (L4 : forall n, 1 <= n <= 9999 ->
            String.length (zfill 4 (str n)) = 4%nat)
    by (intros n Hn; apply zfill4; lia).
  assert (L2 : forall n lo hi, lo <= n <= hi -> 0 <= lo -> hi < 100 ->
            String.length (zfill 2 (str n)) = 2%nat)
    by (intros n lo hi Hn Hlo Hhi; apply zfill2; lia).
  intros H.
  apply string_app_inj_length in H as [Ey H];
    [|rewrite !L4 by assumption; reflexivity].
  apply string_app_inj_length in H as [Emo H];
    [|rewrite !(L2 _ 1 12) by (assumption || lia); reflexivity].
  apply string_app_inj_length in H as [Ed H];
    [|rewrite !(L2 _ 1 31) by (assumption || lia); reflexivity].
  apply string_app_inj_length in H as [_ H]; [|reflexivity].
  apply string_app_inj_length in H as [Eh H];
    [|rewrite !(L2 _ 0 23) by (assumption || lia); reflexivity].
  apply string_app_inj_length in H as [Emi H];
    [|rewrite !(L2 _ 0 59) by (assumption || lia); reflexivity].
  apply string_app_inj_length in H as [Es _];
    [|rewrite !(L2 _ 0 59) by (assumption || lia); reflexivity].
  unfold same_second.
  repeat split;
    (apply zfill4_inj; [lia | lia | assumption])
    || (apply zfill2_inj; [lia | lia | assumption]).
Qed.

Lemma output_file_eq (d1 d2 : datetime) :
  valid_datetime d1 -> valid_datetime d2 ->
  output_file d1 = output_file d2 <-> same_second d1 d2.
Proof.
  intros V1 V2. split.
  - unfold output_file, output_name. intros H.
    do 3 apply string_app_inv_head in H.
    now apply strftime_inj.
  - intros H. unfold output_file, output_name.
    now rewrite (strftime_same_second d1 d2 H).
Qed.

Lemma output_name_eq (d1 d2 : datetime) :
  valid_datetime d1 -> valid_datetime d2 ->
  output_name d1 = output_name d2 <-> same_second d1 d2.
Proof.
  intros V1 V2. rewrite <- (output_file_eq d1 d2 V1 V2).
  unfold output_file. split; [now intros -> |].
  intros H. now do 2 apply string_app_inv_head in H.
Qed.

Lemma persist_eq (w : world) (report : json) (p : proc) :
  persist w report p
  = (Ok (output_file (now w)),
     Proc (Fs (vendor (disk p))
             (Some (<[output_name (now w) := report]>
                      (default ∅ (results_dir (disk p))))))
          (ran p)).
Proof. reflexivity. Qed.

(** C5, as the specification states it, fails: two reports persisted by one
    process at two instants of the same second (100 and 900000 microseconds
    past 03:04:05) get the same path, and the directory then holds a single
    file, with the second report in it. *)
Lemma persist_same_second_collides :
  let d1 := DateTime 2025 1 2 3 4 5 100 in
  let d2 := DateTime 2025 1 2 3 4 5 900000 in
  let first := persist (at_time d1 healthy_world) (JStr "first") empty_proc in
  let second := persist (at_time d2 healthy_world) (JStr "second") (snd first) in
  d1 <> d2 /\ same_second d1 d2 /\
  fst first
  = Ok "benches/benchmark_results/python_mem0_results_20250102_030405.json" /\
  fst second = fst first /\
  results_dir (disk (snd second))
  = Some {[ "python_mem0_results_20250102_030405.json" := JStr "second" ]}.
Proof.
  intros d1 d2 first second.
  split; [discriminate|]. split; [repeat split|].
  split; [reflexivity|]. split; [reflexivity|].
  subst first second. rewrite !persist_eq. cbn [snd disk results_dir default].
  f_equal; apply insert_insert_eq.
Qed.

(** C5, amended. Two [persist] calls of one process get distinct paths
    exactly when their timestamps differ at second resolution. No suffix is
    appended: within the same second both calls get the same path and the
    file then holds the second report; in different seconds both reports
    are kept. *)
Theorem persist_paths (w1 w2 : world) (r1 r2 : json) (p : proc) :
  valid_datetime (now w1) -> valid_datetime (now w2) ->
  exists (path1 path2 : string) (p1 p2 : proc) (files : gmap string json),
    persist w1 r1 p = (Ok path1, p1) /\
    persist w2 r2 p1 = (Ok path2, p2) /\
    results_dir (disk p2) = Some files /\
    (path1 <> path2 <-> ~ same_second (now w1) (now w2)) /\
    files !! output_name (now w2) = Some r2 /\
    (same_second (now w1) (now w2) ->
     path1 = path2 /\ files !! output_name (now w1) = Some r2) /\
    (~ same_second (now w1) (now w2) ->
     files !! output_name (now w1) = Some r1).
Proof.
  intros V1 V2. rewrite persist_eq.
  eexists _, _, _, _, _. split; [reflexivity|]. rewrite persist_eq.
  split; [reflexivity|]. cbn [snd disk results_dir default].
  split; [reflexivity|].
  pose proof (output_file_eq _ _ V1 V2) as Hfile.
  pose proof (output_name_eq _ _ V1 V2) as Hname.
  split; [now rewrite Hfile|].
  split; [apply lookup_insert_eq|]. split.
  - intros Hs. split; [now apply Hfile|].
    apply Hname in Hs. rewrite Hs. apply lookup_insert_eq.
  - intros Hs. rewrite lookup_insert_ne; [apply lookup_insert_eq|].
    intros E. apply Hs, Hname. now symmetry.
Qed.

(** C5 amended, at two instants of the same second and at two instants one
    second apart. *)
Lemma persist_paths_witness :
  let d1 := DateTime 2025 1 2 3 4 5 100 in
  let d2 := DateTime 2025 1 2 3 4 5 900000 in
  let d3 := DateTime 2025 1 2 3 4 6 0 in
  (valid_datetime d1 /\ valid_datetime d2 /\ valid_datetime d3) /\
  (same_second d1 d2 /\ ~ same_second d1 d3) /\
  (exists p1 p2 files,
     persist (at_time d1 healthy_world) (JStr "first") empty_proc
     = (Ok (output_file d1), p1) /\
     persist (at_time d2 healthy_world) (JStr "second") p1
     = (Ok (output_file d1), p2) /\
     results_dir (disk p2) = Some files /\
     files !! output_name d1 = Some (JStr "second")) /\
  (exists p1 p2 files,
     persist (at_time d1 healthy_world) (JStr "first") empty_proc
     = (Ok (output_file d1), p1) /\
     persist (at_time d3 healthy_world) (JStr "second") p1
     = (Ok (output_file d3), p2) /\
     output_file d1 <> output_file d3 /\
     results_dir (disk p2) = Some files /\
     files !! output_name d1 = Some (JStr "first") /\
     files !! output_name d3 = Some (JStr "second")).
Proof.
  intros d1 d2 d3.
  assert (V1 : valid_datetime d1) by (unfold valid_datetime; simpl; lia).
  assert (V2 : valid_datetime d2) by (unfold valid_datetime; simpl; lia).
  assert (V3 : valid_datetime d3) by (unfold valid_datetime; simpl; lia).
  assert (S12 : same_second d1 d2) by (repeat split).
  assert (S13 : ~ same_second d1 d3)
    by (intros (_ & _ & _ & _ & _ & H); discriminate H).
  split; [auto|]. split; [auto|]. split.
  - destruct (persist_paths (at_time d1 healthy_world)
                (at_time d2 healthy_world) (JStr "first") (JStr "second")
                empty_proc V1 V2)
      as (path1 & path2 & p1 & p2 & files & E1 & E2 & Hdir & _ & _ & Hsame & _).
    destruct (Hsame S12) as [Hp Hf].
    exists p1, p2, files.
    rewrite persist_eq in E1. injection E1 as <- <-.
    rewrite persist_eq in E2. injection E2 as <- <-.
    split; [reflexivity|]. split; [reflexivity|]. split; [exact Hdir|].
    exact Hf.
  - destruct (persist_paths (at_time d1 healthy_world)
                (at_time d3 healthy_world) (JStr "first") (JStr "second")
                empty_proc V1 V3)
      as (path1 & path2 & p1 & p2 & files & E1 & E2 & Hdir & Hne & H2 & _
          & Hkeep).
    exists p1, p2, files.
    rewrite persist_eq in E1. injection E1 as <- <-.
    rewrite persist_eq in E2. injection E2 as <- <-.
    split; [reflexivity|]. split; [reflexivity|].
    split; [now apply Hne|]. split; [exact Hdir|].
    split; [exact (Hkeep S13) | exact H2].
Defined.

(** * Further properties of the driver *)

(** ** [setup_mem0] *)

(** X1. On a disk without [vendor/mem0], when the four commands succeed,
    [setup_mem0] returns the two paths; it has run exactly [git clone],
    [python -m venv], [pip install -e] and [pip install numpy], in this
    order, and leaves a clone with both packages installed, without
    touching the directory of comparison reports. *)
Theorem setup_mem0_success (w : world) (p : proc) :
  mem0_of (disk p) = None ->
  git_clone_ok w = true -> venv_ok w = true ->
  pip_mem0_ok w = true -> pip_numpy_ok w = true ->
  exists p',
    setup_mem0 w p = (Ok (mem0_dir, venv_dir), p') /\
    ran p' = ran p ++ [git_clone_cmd; venv_cmd; pip_mem0_cmd; pip_numpy_cmd] /\
    mem0_of (disk p') = Some (Mem0Tree (Some (Venv true true)) false None) /\
    installed (disk p') = true /\
    results_dir (disk p') = results_dir (disk p).
Proof.
  destruct_world w; cbn; try discriminate; intros Hnone _ _ _ _;
    revert Hnone; destruct_disk p; cbn; try discriminate; intros _;
    eexists; (split; [reflexivity|]); cbn;
    rewrite <- ?app_assoc; cbn; repeat split.
Qed.

Lemma setup_mem0_success_witness :
  exists p',
    setup_mem0 healthy_world empty_proc = (Ok (mem0_dir, venv_dir), p') /\
    ran p' = [git_clone_cmd; venv_cmd; pip_mem0_cmd; pip_numpy_cmd] /\
    installed (disk p') = true.
Proof.
  destruct (setup_mem0_success healthy_world empty_proc)
    as (p' & E & Hran & _ & Hi & _); try reflexivity.
  exists p'. split; [exact E|]. split; [exact Hran | exact Hi].
Defined.

(** ** [run_benchmarks] *)

Lemma run_benchmarks_eq (w : world) (env : string * string) (p : proc)
    (t : mem0_tree) (v : venv_state) :
  mem0_of (disk p) = Some t -> venv t = Some v ->
  let file := match writes (bench w v) with
              | Some c => Some c
              | None => raw_results t
              end in
  run_benchmarks w env p
  = (if returncode (bench w v) =? 0
     then match file with
          | Some (Doc j) => Ok j
          | Some Garbage => Raise JSONDecodeError
          | None => Raise (FileNotFoundError results_file)
          end
     else Raise (PyException "Benchmark failed"),
     Proc (set_mem0 (Some (Mem0Tree (Some v) true file)) (disk p))
          (ran p ++ [[python_path; benchmark_script_path]])).
Proof.
  unfold run_benchmarks, bind, get_disk, lift_result, modify_disk, ret, raise.
  destruct_disk p; cbn; intros [= <-]; cbn; intros [= <-].
  destruct (returncode (bench w _) =? 0); cbn;
    destruct (writes (bench w _)) as [[j|]|]; cbn; try reflexivity;
    destruct raw as [[j|]|]; reflexivity.
Qed.

(** X4. [run_benchmarks] returns what the benchmark script wrote: when the
    script exits with status 0 and has written a JSON document to
    [mem0_benchmark_results.json], that document is the result; the driver
    has written [run_benchmarks.py], run the one command
    [python run_benchmarks.py] with the environment's interpreter, and left
    the directory of comparison reports alone. *)
Theorem run_benchmarks_returns_written_results (w : world)
    (env : string * string) (p : proc) (t : mem0_tree) (v : venv_state)
    (j : json) :
  mem0_of (disk p) = Some t -> venv t = Some v ->
  returncode (bench w v) = 0 -> writes (bench w v) = Some (Doc j) ->
  exists p',
    run_benchmarks w env p = (Ok j, p') /\
    ran p' = ran p ++ [[python_path; benchmark_script_path]] /\
    mem0_of (disk p') = Some (Mem0Tree (Some v) true (Some (Doc j))) /\
    results_dir (disk p') = results_dir (disk p).
Proof.
  intros Ht Hv Hrc Hw. rewrite (run_benchmarks_eq w env p t v Ht Hv).
  rewrite Hrc, Hw. cbn. eexists. split; [reflexivity|]. repeat split.
Qed.

Lemma run_benchmarks_returns_written_results_witness :
  let p := snd (provision healthy_world empty_proc) in
  exists p',
    run_benchmarks healthy_world (mem0_dir, venv_dir) p
    = (Ok sample_results, p') /\
    ran p' = ran p ++ [[python_path; benchmark_script_path]].
Proof.
  intros p.
  destruct (run_benchmarks_returns_written_results healthy_world
              (mem0_dir, venv_dir) p
              (Mem0Tree (Some (Venv true true)) false None) (Venv true true)
              sample_results) as (p' & E & Hran & _); try reflexivity.
  exists p'. split; [exact E | exact Hran].
Defined.

(** X5. [run_benchmarks] does not check that the result file is new: when
    the script exits with status 0 without writing it, a results file left
    in [vendor/mem0] by an earlier run is loaded and returned as the result
    of this run. *)
Theorem run_benchmarks_returns_stale_results (w : world)
    (env : string * string) (p : proc) (t : mem0_tree) (v : venv_state)
    (old : json) :
  mem0_of (disk p) = Some t -> venv t = Some v ->
  returncode (bench w v) = 0 -> writes (bench w v) = None ->
  raw_results t = Some (Doc old) ->
  fst (run_benchmarks w env p) = Ok old.
Proof.
  intros Ht Hv Hrc Hw Hraw. rewrite (run_benchmarks_eq w env p t v Ht Hv).
  rewrite Hrc, Hw, Hraw. reflexivity.
Qed.

Lemma run_benchmarks_returns_stale_results_witness :
  let p := snd (main healthy_world empty_proc) in
  fst (run_benchmarks silent_world (mem0_dir, venv_dir) p) = Ok sample_results /\
  fst (main silent_world p) = 0.
Proof.
  intros p. split; [|vm_compute; reflexivity].
  apply (run_benchmarks_returns_stale_results silent_world _ p
           (Mem0Tree (Some (Venv true true)) true (Some (Doc sample_results)))
           (Venv true true)); reflexivity.
Defined.

(** X6. The exit status of the script comes first: with a non-zero status
    [run_benchmarks] raises ["Benchmark failed"] even when the script has
    written a valid result file (which stays on disk); with status 0 and a
    result file that is not JSON it raises [JSONDecodeError]. In both cases
    the script has been written and run once. *)
Theorem run_benchmarks_failures (w : world) (env : string * string)
    (p : proc) (t : mem0_tree) (v : venv_state) :
  mem0_of (disk p) = Some t -> venv t = Some v ->
  ran (snd (run_benchmarks w env p))
  = ran p ++ [[python_path; benchmark_script_path]] /\
  (returncode (bench w v) <> 0 ->
   fst (run_benchmarks w env p) = Raise (PyException "Benchmark failed") /\
   forall c, writes (bench w v) = Some c ->
     raw_results <$> mem0_of (disk (snd (run_benchmarks w env p)))
     = Some (Some c)) /\
  (returncode (bench w v) = 0 -> writes (bench w v) = Some Garbage ->
   fst (run_benchmarks w env p) = Raise JSONDecodeError).
Proof.
  intros Ht Hv. rewrite (run_benchmarks_eq w env p t v Ht Hv). cbn.
  split; [reflexivity|]. split.
  - intros Hrc. destruct (Z.eqb_spec (returncode (bench w v)) 0);
      [contradiction|]. split; [reflexivity|]. now intros c ->.
  - intros -> ->. reflexivity.
Qed.

Lemma run_benchmarks_failures_witness :
  let p := snd (main pip_fails empty_proc) in
  fst (run_benchmarks healthy_world (mem0_dir, venv_dir) p)
  = Raise (PyException "Benchmark failed") /\
  ran (snd (run_benchmarks healthy_world (mem0_dir, venv_dir) p))
  = ran p ++ [[python_path; benchmark_script_path]].
Proof.
  intros p.
  destruct (run_benchmarks_failures healthy_world (mem0_dir, venv_dir) p
              (Mem0Tree (Some (Venv false false)) false None)
              (Venv false false)) as (Hran & Hfail & _); try reflexivity.
  split; [|exact Hran]. apply Hfail. vm_compute. discriminate.
Defined.

(** ** [main] *)

Lemma format_comparison_results_eq (w : world) (m : json) (p : proc) :
  format_comparison_results w m p
  = match comparison_report m with
    | Ok report =>
        (Ok (output_file (now w)),
         Proc (Fs (vendor (disk p))
                 (Some (<[output_name (now w) := report]>
                          (default ∅ (results_dir (disk p))))))
              (ran p))
    | Raise e => (Raise e, p)
    end.
Proof.
  unfold format_comparison_results, bind, lift_result.
  destruct (comparison_report m); reflexivity.
Qed.

(** What a run does to the directory of comparison reports. *)
Lemma main_body_results_dir (w : world) (p p' : proc) (r : result string) :
  main_body w p = (r, p') ->
  match r with
  | Ok _ =>
      exists report,
        results_dir (disk p')
        = Some (<[output_name (now w) := report]>
                  (default ∅ (results_dir (disk p))))
  | Raise _ => results_dir (disk p') = results_dir (disk p)
  end.
Proof.
  rewrite main_body_steps.
  destruct (provision w p) as [[env|e1] p1] eqn:E1.
  - pose proof (provision_results_dir _ _ _ _ E1) as R1.
    destruct (run_benchmarks w env p1) as [[results|e2] p2] eqn:E2.
    + pose proof (run_benchmarks_results_dir _ _ _ _ _ E2) as R2.
      rewrite format_comparison_results_eq.
      destruct (comparison_report results) as [report|e3].
      * intros [= <- <-]. exists report. cbn. now rewrite R2, R1.
      * intros [= <- <-]. congruence.
    + pose proof (run_benchmarks_results_dir _ _ _ _ _ E2) as R2.
      intros [= <- <-]. congruence.
  - intros [= <- <-]. exact (provision_results_dir _ _ _ _ E1).
Qed.

Lemma provision_without_rmtree (w : world) (p : proc) (v : venv_state) :
  (exists t, mem0_of (disk p) = Some t /\ venv t = Some v) \/
  (mem0_of (disk p) = None /\
   git_clone_ok w = true /\ venv_ok w = true /\
   pip_mem0_ok w = true /\ pip_numpy_ok w = true /\ v = Venv true true) ->
  exists p1 t,
    provision w p = (Ok (mem0_dir, venv_dir), p1) /\
    mem0_of (disk p1) = Some t /\ venv t = Some v.
Proof.
  unfold provision, bind, get_disk. intros [(t & Ht & Hv) | H].
  - revert Ht Hv. destruct_disk p; cbn; try discriminate;
      intros [= <-]; cbn; try discriminate; intros [= <-].
    eexists _, _. split; [reflexivity|]. split; reflexivity.
  - destruct H as (Hnone & Hc & Hve & Hm & Hn & ->). revert Hnone Hc Hve Hm Hn.
    destruct_world w; cbn; try discriminate;
      destruct_disk p; cbn; try discriminate; intros _ _ _ _ _;
      eexists _, _; (split; [reflexivity|]); split; reflexivity.
Qed.

(** X7. A run in which nothing fails. Let the script run in the venv state
    [v]: either [vendor/mem0] and its [venv] exist, in state [v], or
    [vendor/mem0] is absent, the four set-up commands succeed and [v] is
    the installed state. When the script then exits with status 0 after
    writing a document [j] that has both suites, [main] exits with status
    0, the result file holds [j], and the only change to the directory of
    comparison reports is the file named after the current second, which
    holds the report assembled from [j]. *)
Theorem main_success (w : world) (p : proc) (v : venv_state)
    (j report : json) :
  (exists t, mem0_of (disk p) = Some t /\ venv t = Some v) \/
  (mem0_of (disk p) = None /\
   git_clone_ok w = true /\ venv_ok w = true /\
   pip_mem0_ok w = true /\ pip_numpy_ok w = true /\ v = Venv true true) ->
  returncode (bench w v) = 0 -> writes (bench w v) = Some (Doc j) ->
  comparison_report j = Ok report ->
  exists p',
    main w p = (0, p') /\
    results_dir (disk p')
    = Some (<[output_name (now w) := report]>
              (default ∅ (results_dir (disk p)))) /\
    raw_results <$> mem0_of (disk p') = Some (Some (Doc j)).
Proof.
  intros Hstate Hrc Hw Hrep.
  destruct (provision_without_rmtree w p v Hstate) as (p1 & t & E1 & Ht & Hvt).
  pose proof (provision_results_dir _ _ _ _ E1) as R1.
  unfold main. rewrite main_body_steps, E1.
  rewrite (run_benchmarks_eq w _ p1 t v Ht Hvt), Hrc, Hw.
  cbn -[format_comparison_results].
  rewrite format_comparison_results_eq, Hrep. cbn.
  eexists. split; [reflexivity|]. cbn. rewrite R1. split; reflexivity.
Qed.

(** X7 on a fresh machine where every command succeeds, and on the machine
    that run leaves behind one second later. *)
Lemma main_success_witness :
  let later := at_time (DateTime 2025 1 2 3 4 6 0) healthy_world in
  exists p1 p2 report,
    comparison_report sample_results = Ok report /\
    main healthy_world empty_proc = (0, p1) /\
    results_dir (disk p1) = Some {[ output_name sample_now := report ]} /\
    main later p1 = (0, p2) /\
    runs git_clone_cmd p2 = 1%nat.
Proof.
  intros later.
  destruct (comparison_report sample_results) as [report|] eqn:E;
    [|discriminate E].
  destruct (main_success healthy_world empty_proc (Venv true true)
              sample_results report) as (p1 & Hmain1 & Hdir1 & Hraw);
    [right; repeat split | reflexivity | reflexivity | exact E |].
  assert (Hp1 : p1 = snd (main healthy_world empty_proc))
    by (now rewrite Hmain1).
  destruct (main_success later p1 (Venv true true) sample_results report)
    as (p2 & Hmain2 & _);
    [left; subst p1; eexists; split; vm_compute; reflexivity
    | reflexivity | reflexivity | exact E |].
  exists p1, p2, report. split; [reflexivity|]. split; [exact Hmain1|].
  split; [exact Hdir1|]. split; [exact Hmain2|].
  assert (Hp2 : p2 = snd (main later p1)) by (now rewrite Hmain2).
  rewrite Hp2, Hp1. vm_compute. reflexivity.
Defined.

(** X8. [main] never removes or changes a comparison report of an earlier
    run: whether the run succeeds or fails, every file of
    [benchmark_results] other than the one named after the current second
    is after the run what it was before. *)
Theorem main_keeps_other_reports (w : world) (p : proc) (name : string) :
  name <> output_name (now w) ->
  default ∅ (results_dir (disk (snd (main w p)))) !! name
  = default ∅ (results_dir (disk p)) !! name.
Proof.
  intros Hne. unfold main.
  destruct (main_body w p) as [[path|e] p'] eqn:E;
    pose proof (main_body_results_dir w p p' _ E) as H; cbn [snd].
  - destruct H as (report & ->). cbn [default].
    apply lookup_insert_ne. congruence.
  - now rewrite H.
Qed.

Lemma main_keeps_other_reports_witness :
  let later := at_time (DateTime 2025 1 2 3 4 6 0) healthy_world in
  let p := snd (main healthy_world empty_proc) in
  default ∅ (results_dir (disk (snd (main later p)))) !! output_name sample_now
  = default ∅ (results_dir (disk p)) !! output_name sample_now.
Proof.
  intros later p. apply main_keeps_other_reports. vm_compute. discriminate.
Defined.

(** ** The order of the doubles *)











(** ** Sorting and extrema of doubles *)

Lemma float_insert_sorted_perm (x : float) (l : list float) :
  Permutation (x :: l) (float_insert_sorted x l).
Proof.
  induction l as [|y l IH]; simpl; [reflexivity|].
  destruct (PrimFloat.ltb x y); [reflexivity|].
  rewrite perm_swap. now apply perm_skip.
Qed.




Lemma float_sorted_fold_perm (times acc : list float) :
  Permutation (acc ++ times)
    (fold_left (fun acc x => float_insert_sorted x acc) times acc).
Proof.
  revert acc. induction times as [|x times IH]; simpl; intros acc.
  - now rewrite app_nil_r.
  - rewrite <- IH, <- float_insert_sorted_perm. symmetry.
    apply Permutation_middle.
Qed.

Lemma float_sorted_perm (times : list float) :
  Permutation times (float_sorted times).
Proof. exact (float_sorted_fold_perm times []). Qed.

Lemma float_sorted_length (times : list float) :
  length (float_sorted times) = length times.
Proof. symmetry. apply Permutation_length, float_sorted_perm. Qed.




(** What [summarize_float] returns on a non-empty sample. *)
Lemma summarize_float_cons (x : float) (l : list float) :
  exists med,
    nth_error (float_sorted (x :: l)) (length (x :: l) / 2) = Some med /\
    summarize_float (x :: l)
    = Ok (FloatStats
            (PrimFloat.div (float_sum (x :: l))
               (float_of_len (Z.of_nat (length (x :: l)))))
            med (float_min_from x l) (float_max_from x l)).
Proof.
  set (times := x :: l).
  assert (Hn : (0 < length times)%nat) by (simpl; lia).
  destruct (nth_error (float_sorted times) (length times / 2)) as [med|] eqn:E.
  - exists med. split; [reflexivity|].
    pose proof (list_getitem_in_range _ _ _ E) as Hget.
    rewrite (Nat2Z.inj_div _ 2) in Hget. change (Z.of_nat 2) with 2 in Hget.
    unfold summarize_float. fold times.
    destruct (Z.eqb_spec (Z.of_nat (length times)) 0) as [H0|_]; [lia|].
    cbn [rbind]. rewrite Hget. reflexivity.
  - exfalso. apply nth_error_None in E. rewrite float_sorted_length in E.
    pose proof (Nat.div_lt (length times) 2 Hn). lia.
Qed.

(** Like [summarize], the display on doubles fails on the empty sample and
    on no other. *)
Lemma summarize_float_is_ok (times : list float) :
  summarize_float [] = Raise ZeroDivisionError /\
  is_ok (summarize_float times)
  = match times with [] => false | _ => true end.
Proof.
  split; [reflexivity|]. destruct times as [|x l]; [reflexivity|].
  destruct (summarize_float_cons x l) as (med & _ & ->). reflexivity.
Qed.

(** ** The mean of 0.1, 0.2 and 0.3 is no double *)




(** ** The statistics in double precision *)



